(** * Round engine of the liquidity provision skill and behaviours of the
      price estimation skill

    A shallow embedding of
    - [packages/valory/skills/liquidity_provision/rounds.py]
      (period state, strategy evaluation round, transition function), and
    - [packages/valory/skills/price_estimation_abci/behaviours.py]
      (behaviour states and their [async_act] generators),
    followed by the properties the specification states about them. *)

From Stdlib Require Import ZArith Lia.
From stdpp Require Import base option strings list gmap fin_sets fin_maps.

(** ** Python values and exceptions *)

Module Py.

(** Exceptions raised by the modelled code.  [AEAEnforceError] is what
    [aea.exceptions.enforce] raises when its condition is false;
    [StateNotReady] is the failure the specification gives to accessors of
    the base classes that are read before their data is populated;
    [KeyError] is a failed dictionary subscript. *)
Inductive exn : Type :=
| AEAEnforceError (msg : string)
| StateNotReady (msg : string)
| KeyError (key : string).

(** A computation either returns a value or raises. *)
Inductive result (A : Type) : Type :=
| Ok (a : A)
| Err (e : exn).

Arguments Ok {A} a.
Arguments Err {A} e.

#[global] Instance result_ret : MRet result := fun A a => Ok a.

#[global] Instance result_bind : MBind result := fun A B f m =>
  match m with
  | Ok a => f a
  | Err e => Err e
  end.

(** [enforce(is_valid_condition, exception_text)] *)
Definition enforce (is_valid_condition : bool) (exception_text : string)
  : result unit :=
  if is_valid_condition then Ok tt else Err (AEAEnforceError exception_text).

End Py.

Import Py.

(** ** liquidity_provision/rounds.py *)

Module LiquidityProvision.

(** [class Event(Enum)] *)
Module Event.
Inductive t : Type :=
| DONE | EXIT | ROUND_TIMEOUT | NO_MAJORITY | WAIT | NO_ALLOWANCE.
#[global] Instance eq_dec : EqDecision t.
Proof. solve_decision. Defined.
End Event.

(** Modelled from the spec: the enumeration [StrategyType] lives in
    [liquidity_provision/payloads.py], which is not among the sources.
    [rounds.py] names its member [GO]; [WAIT] is the member a strategy
    carries when the agents decide not to go. *)
Module StrategyType.
Inductive t : Type := GO | WAIT.
#[global] Instance eq_dec : EqDecision t.
Proof. solve_decision. Defined.
End StrategyType.

(** Values stored in a strategy dictionary. *)
Inductive pyvalue : Type :=
| PyStr (s : string)
| PyInt (z : Z)
| PyStrategyType (a : StrategyType.t).

#[global] Instance pyvalue_eq_dec : EqDecision pyvalue.
Proof. solve_decision. Defined.

(** A strategy is a Python [dict] with string keys. *)
Abbreviation dict := (gmap string pyvalue).

(** [d[key]] *)
Definition getitem (d : dict) (key : string) : result pyvalue :=
  match d !! key with
  | Some v => Ok v
  | None => Err (KeyError key)
  end.

(** Modelled from the spec: [StrategyEvaluationPayload] is declared in the
    missing [payloads.py]; a payload is the sender's address together with
    the value of its [payload_attribute], here ["strategy"]. *)
Record StrategyEvaluationPayload : Type := mkPayload {
  sender : string;
  strategy : dict;
}.

#[global] Instance payload_eq_dec : EqDecision StrategyEvaluationPayload.
Proof. solve_decision. Defined.

(** A collection maps a participant address to its payload. *)
Abbreviation collection_t := (gmap string StrategyEvaluationPayload).

(** [class PeriodState(BasePeriodState)]: the three private attributes set
    by [__init__]; [None] is Python's [None]. *)
Record PeriodState : Type := mkPeriodState {
  _participants : option (gset string);
  _participant_to_strategy : option collection_t;
  _most_voted_strategy : option dict;
}.

(** [PeriodState.__init__], every argument defaulting to [None]. *)
Definition PeriodState_init
  (participants : option (gset string))
  (participant_to_strategy : option collection_t)
  (most_voted_strategy : option dict) : PeriodState :=
  {| _participants := participants;
     _participant_to_strategy := participant_to_strategy;
     _most_voted_strategy := most_voted_strategy |}.

(** Modelled from the spec: the property [BasePeriodState.participants] of
    the missing [abstract_round_abci/base.py]; read accessors raise rather
    than return a sentinel when the data is not populated. *)
Definition participants (self : PeriodState) : result (gset string) :=
  match _participants self with
  | Some ps => Ok ps
  | None => Err (StateNotReady "participants")
  end.

(** Modelled from the spec: [BasePeriodState.nb_participants], the size of
    the participant set. *)
Definition nb_participants (self : PeriodState) : result nat :=
  ps ← participants self; mret (size ps).

(** Keyword arguments of [update]: a field is either not mentioned
    ([None]) or given a new content, which may be Python's [None]. *)
Record kwargs : Type := mkKwargs {
  kw_participants : option (option (gset string));
  kw_participant_to_strategy : option (option collection_t);
  kw_most_voted_strategy : option (option dict);
}.

(** Modelled from the spec: [BasePeriodState.update] of the missing
    [base.py], called with keyword fields, returns a new period state with
    the given fields replaced and the others as they were. *)
Definition update (self : PeriodState) (kw : kwargs) : PeriodState :=
  PeriodState_init
    (default (_participants self) (kw_participants kw))
    (default (_participant_to_strategy self) (kw_participant_to_strategy kw))
    (default (_most_voted_strategy self) (kw_most_voted_strategy kw)).

(** [PeriodState.most_voted_strategy]: [enforce], then the stored value
    (the [None] branch is behind the [enforce] and is never taken). *)
Definition most_voted_strategy (self : PeriodState) : result dict :=
  _ ← enforce (bool_decide (_most_voted_strategy self ≠ None))
        "'most_voted_strategy' field is None";
  match _most_voted_strategy self with
  | Some s => mret s
  | None => Err (AEAEnforceError "'most_voted_strategy' field is None")
  end.

(** [PeriodState.reset] *)
Definition reset (self : PeriodState) : result PeriodState :=
  ps ← participants self;
  mret (PeriodState_init (Some ps) None None).

(** [class LiquidityProvisionAbstractRound] / [class StrategyEvaluationRound]:
    a round holds the period state it was created with ([self._state],
    read through [period_state]) and the payloads collected so far, keyed
    by the sender's address ([self.collection]). *)
Record StrategyEvaluationRound : Type := mkRound {
  period_state : PeriodState;
  collection : collection_t;
}.

(** Modelled from the spec: [CollectSameUntilThresholdRound] of the missing
    [price_estimation_abci/rounds.py] maintains a count per distinct
    payload value: the number of senders whose payload carries [v]. *)
Definition payloads_count (c : collection_t) (v : dict) : nat :=
  size (filter (λ kp, strategy kp.2 = v) c).

(** The senders whose payload carries [v]; [payloads_count] is the size
    of this set. *)
Definition voters (c : collection_t) (v : dict) : gset string :=
  dom (filter (λ kp, strategy kp.2 = v) c).

(** Modelled from the spec: the largest per-value count of a collection
    (0 when nothing was submitted). *)
Definition largest_count (c : collection_t) : nat :=
  max_list ((λ kp, payloads_count c (strategy kp.2)) <$> map_to_list c).

(** Modelled from the spec: [two_thirds_threshold] of the missing consensus
    parameters, the byzantine quorum size floor(2/3 * nb_participants) + 1. *)
Definition two_thirds_threshold (nb_participants : nat) : nat :=
  (2 * nb_participants) / 3 + 1.

(** Modelled from the spec: [CollectSameUntilThresholdRound.threshold_reached]
    is true when the largest per-value count is at least the quorum of the
    period's participant set. *)
Definition threshold_reached (self : StrategyEvaluationRound) : result bool :=
  n ← nb_participants (period_state self);
  mret (bool_decide (two_thirds_threshold n ≤ largest_count (collection self))).

(** Modelled from the spec: [CollectSameUntilThresholdRound.most_voted_payload]
    is, on reaching the threshold, the value with the largest count; it is
    a derived value, so reading it earlier is the access-before-ready
    failure. *)
Definition most_voted_payload (self : StrategyEvaluationRound) : result dict :=
  reached ← threshold_reached self;
  let c := collection self in
  if reached : bool then
    match
      list_find (λ kp, payloads_count c (strategy kp.2) = largest_count c)
        (map_to_list c)
    with
    | Some (_, kp) => mret (strategy kp.2)
    | None => Err (StateNotReady "most_voted_payload")
    end
  else Err (StateNotReady "most_voted_payload").

(** Modelled from the spec: [is_majority_possible(collection,
    nb_participants)] of the missing base round is false exactly when the
    participants who have not yet submitted plus the current leading count
    stay below the quorum.  The difference is a Python integer. *)
Definition is_majority_possible
  (votes_by_participant : collection_t) (nb_participants : nat) : bool :=
  negb (Z.of_nat nb_participants - Z.of_nat (size votes_by_participant)
        + Z.of_nat (largest_count votes_by_participant)
        <? Z.of_nat (two_thirds_threshold nb_participants))%Z.

(** [LiquidityProvisionAbstractRound._return_no_majority_event] *)
Definition _return_no_majority_event (self : StrategyEvaluationRound)
  : result (PeriodState * Event.t) :=
  st ← reset (period_state self);
  mret (st, Event.NO_MAJORITY).

(** [StrategyEvaluationRound.end_block].  The event is computed from
    [self.period_state], the state the round was created with, as the
    source writes it, not from the freshly built [state]. *)
Definition end_block (self : StrategyEvaluationRound)
  : result (option (PeriodState * Event.t)) :=
  reached ← threshold_reached self;
  if reached : bool then
    mvp ← most_voted_payload self;
    let state :=
      update (period_state self)
        {| kw_participants := None;
           kw_participant_to_strategy := Some (Some (collection self));
           kw_most_voted_strategy := Some (Some mvp) |} in
    s ← most_voted_strategy (period_state self);
    action ← getitem s "action";
    let event :=
      if decide (action = PyStrategyType StrategyType.GO)
      then Event.DONE else Event.WAIT in
    mret (Some (state, event))
  else
    n ← nb_participants (period_state self);
    if negb (is_majority_possible (collection self) n) then
      r ← _return_no_majority_event self;
      mret (Some r)
    else mret None.

(** The state [end_block] builds when the threshold is reached with [v]
    the most voted payload. *)
Definition reached_state (self : StrategyEvaluationRound) (v : dict)
  : PeriodState :=
  update (period_state self)
    {| kw_participants := None;
       kw_participant_to_strategy := Some (Some (collection self));
       kw_most_voted_strategy := Some (Some v) |}.

(** [class LiquidityProvisionAbciApp(AbciApp[Event])] *)
Module LiquidityProvisionAbciApp.

(** The round classes the application names. *)
Inductive RoundCls : Type :=
| RegistrationRound | RandomnessRound | SelectKeeperMainRound
| DeploySafeRound | SelectKeeperDeployRound | ValidateSafeRound
| StrategyEvaluationRound | WaitRound | SwapRound | SelectKeeperSwapRound
| ValidateSwapRound | AllowanceCheckRound | AddAllowanceRound
| SelectKeeperAddAllowanceRound | ValidateAddAllowanceRound
| AddLiquidityRound | SelectKeeperAddLiquidityRound
| ValidateAddLiquidityRound | RemoveLiquidityRound
| SelectKeeperRemoveLiquidityRound | ValidateRemoveLiquidityRound
| RemoveAllowanceRound | SelectKeeperRemoveAllowanceRound
| ValidateRemoveAllowanceRound | SwapBackRound | SelectKeeperSwapBackRound
| ValidateSwapBackRound | ConsensusReachedRound.

#[global] Instance RoundCls_eq_dec : EqDecision RoundCls.
Proof. solve_decision. Defined.

(** [initial_round_cls] *)
Definition initial_round_cls : RoundCls := RegistrationRound.

(** [transition_function], the dictionary literal
    entry by entry, in the order of the source. *)
Definition transition_function
  : list (RoundCls * list (Event.t * RoundCls)) :=
  [ (RegistrationRound, [ (Event.DONE, RandomnessRound) ]);
    (RandomnessRound,
      [ (Event.DONE, SelectKeeperMainRound);
        (Event.ROUND_TIMEOUT, RegistrationRound);
        (Event.NO_MAJORITY, RegistrationRound) ]);
    (SelectKeeperMainRound,
      [ (Event.DONE, DeploySafeRound);
        (Event.ROUND_TIMEOUT, RegistrationRound);
        (Event.NO_MAJORITY, RegistrationRound) ]);
    (DeploySafeRound,
      [ (Event.DONE, ValidateSafeRound);
        (Event.EXIT, SelectKeeperDeployRound) ]);
    (SelectKeeperDeployRound,
      [ (Event.DONE, DeploySafeRound);
        (Event.ROUND_TIMEOUT, RegistrationRound);
        (Event.NO_MAJORITY, RegistrationRound) ]);
    (ValidateSafeRound,
      [ (Event.DONE, StrategyEvaluationRound);
        (Event.ROUND_TIMEOUT, RegistrationRound);
        (Event.NO_MAJORITY, RegistrationRound) ]);
    (StrategyEvaluationRound,
      [ (Event.DONE, SwapRound);
        (Event.WAIT, WaitRound);
        (Event.ROUND_TIMEOUT, RegistrationRound);
        (Event.NO_MAJORITY, RegistrationRound) ]);
    (WaitRound,
      [ (Event.DONE, StrategyEvaluationRound);
        (Event.ROUND_TIMEOUT, RegistrationRound);
        (Event.NO_MAJORITY, RegistrationRound) ]);
    (SwapRound,
      [ (Event.DONE, ValidateSwapRound);
        (Event.ROUND_TIMEOUT, RegistrationRound);
        (Event.NO_MAJORITY, RegistrationRound);
        (Event.EXIT, SelectKeeperSwapRound) ]);
    (SelectKeeperSwapRound,
      [ (Event.DONE, SwapRound);
        (Event.ROUND_TIMEOUT, RegistrationRound);
        (Event.NO_MAJORITY, RegistrationRound) ]);
    (ValidateSwapRound,
      [ (Event.DONE, AllowanceCheckRound);
        (Event.ROUND_TIMEOUT, RegistrationRound);
        (Event.NO_MAJORITY, RegistrationRound) ]);
    (AllowanceCheckRound,
      [ (Event.DONE, AddLiquidityRound);
        (Event.NO_ALLOWANCE, AddAllowanceRound);
        (Event.ROUND_TIMEOUT, RegistrationRound);
        (Event.NO_MAJORITY, RegistrationRound) ]);
    (AddAllowanceRound,
      [ (Event.DONE, ValidateAddAllowanceRound);
        (Event.ROUND_TIMEOUT, RegistrationRound);
        (Event.NO_MAJORITY, RegistrationRound);
        (Event.EXIT, SelectKeeperAddAllowanceRound) ]);
    (SelectKeeperAddAllowanceRound,
      [ (Event.DONE, AddAllowanceRound);
        (Event.ROUND_TIMEOUT, RegistrationRound);
        (Event.NO_MAJORITY, RegistrationRound) ]);
    (ValidateAddAllowanceRound,
      [ (Event.DONE, AddLiquidityRound);
        (Event.ROUND_TIMEOUT, RegistrationRound);
        (Event.NO_MAJORITY, RegistrationRound) ]);
    (AddLiquidityRound,
      [ (Event.DONE, ValidateAddLiquidityRound);
        (Event.ROUND_TIMEOUT, RegistrationRound);
        (Event.NO_MAJORITY, RegistrationRound);
        (Event.EXIT, SelectKeeperAddLiquidityRound) ]);
    (SelectKeeperAddLiquidityRound,
      [ (Event.DONE, AddLiquidityRound);
        (Event.ROUND_TIMEOUT, RegistrationRound);
        (Event.NO_MAJORITY, RegistrationRound) ]);
    (ValidateAddLiquidityRound,
      [ (Event.DONE, RemoveLiquidityRound);
        (Event.ROUND_TIMEOUT, RegistrationRound);
        (Event.NO_MAJORITY, RegistrationRound) ]);
    (RemoveLiquidityRound,
      [ (Event.DONE, ValidateRemoveLiquidityRound);
        (Event.ROUND_TIMEOUT, RegistrationRound);
        (Event.NO_MAJORITY, RegistrationRound);
        (Event.EXIT, SelectKeeperRemoveLiquidityRound) ]);
    (SelectKeeperRemoveLiquidityRound,
      [ (Event.DONE, RemoveLiquidityRound);
        (Event.ROUND_TIMEOUT, RegistrationRound);
        (Event.NO_MAJORITY, RegistrationRound) ]);
    (ValidateRemoveLiquidityRound,
      [ (Event.DONE, RemoveAllowanceRound);
        (Event.ROUND_TIMEOUT, RegistrationRound);
        (Event.NO_MAJORITY, RegistrationRound) ]);
    (RemoveAllowanceRound,
      [ (Event.DONE, ValidateRemoveAllowanceRound);
        (Event.ROUND_TIMEOUT, RegistrationRound);
        (Event.NO_MAJORITY, RegistrationRound);
        (Event.EXIT, SelectKeeperRemoveAllowanceRound) ]);
    (SelectKeeperRemoveAllowanceRound,
      [ (Event.DONE, SwapRound);
        (Event.ROUND_TIMEOUT, RegistrationRound);
        (Event.NO_MAJORITY, RegistrationRound) ]);
    (ValidateRemoveAllowanceRound,
      [ (Event.DONE, SwapBackRound);
        (Event.ROUND_TIMEOUT, RegistrationRound);
        (Event.NO_MAJORITY, RegistrationRound) ]);
    (SwapBackRound,
      [ (Event.DONE, ValidateSwapBackRound);
        (Event.ROUND_TIMEOUT, RegistrationRound);
        (Event.NO_MAJORITY, RegistrationRound);
        (Event.EXIT, SelectKeeperSwapBackRound) ]);
    (SelectKeeperSwapBackRound,
      [ (Event.DONE, SwapBackRound);
        (Event.ROUND_TIMEOUT, RegistrationRound);
        (Event.NO_MAJORITY, RegistrationRound) ]);
    (ValidateSwapBackRound,
      [ (Event.DONE, ConsensusReachedRound);
        (Event.ROUND_TIMEOUT, RegistrationRound);
        (Event.NO_MAJORITY, RegistrationRound) ]) ].

(** Dictionary subscript on a literal: the last entry with the key wins. *)
Fixpoint dict_get {K V} `{EqDecision K} (d : list (K * V)) (k : K)
  : option V :=
  match d with
  | [] => None
  | (k', v) :: d' =>
      match dict_get d' k with
      | Some v' => Some v'
      | None => if decide (k' = k) then Some v else None
      end
  end.

(** The transitions declared for a round class, and the round classes that
    occur as a source (key) and as a target of the transition function. *)
Definition outgoing (rc : RoundCls) : list (Event.t * RoundCls) :=
  default [] (dict_get transition_function rc).

Definition sources : list RoundCls := transition_function.*1.

Definition targets : list RoundCls :=
  mjoin ((λ e, e.2.*2) <$> transition_function).

(** All declared transitions as triples (source, event, target). *)
Definition transitions : list (RoundCls * Event.t * RoundCls) :=
  mjoin ((λ e, (λ t, (e.1, t.1, t.2)) <$> e.2) <$> transition_function).

(** [event_to_timeout], in seconds ([Qmake n 1] is the number [n]). *)
Definition event_to_timeout : list (Event.t * QArith_base.Q) :=
  [ (Event.EXIT, QArith_base.Qmake 5 1);
    (Event.ROUND_TIMEOUT, QArith_base.Qmake 30 1) ].

(** [round_id] as the class bodies of this file declare it; [None] for a
    class whose body declares none and for the classes imported from the
    price estimation skill, whose bodies are elsewhere. *)
Definition round_id (rc : RoundCls) : option string :=
  match rc with
  | SelectKeeperMainRound => Some "select_keeper_main"
  | SelectKeeperDeployRound => Some "select_keeper_deploy"
  | SelectKeeperSwapRound => Some "select_keeper_swap"
  | SelectKeeperAddAllowanceRound => Some "select_keeper_approve"
  | SelectKeeperAddLiquidityRound => Some "select_keeper_add_liquidity"
  | SelectKeeperRemoveLiquidityRound => Some "select_keeper_remove_liquidity"
  | SelectKeeperRemoveAllowanceRound => Some "select_keeper_remove_allowance"
  | SelectKeeperSwapBackRound => Some "select_keeper_swap_back"
  | StrategyEvaluationRound => Some "strategy_evaluation"
  | _ => None
  end.

(** [transition_function[rc][event]], [None] when the table has no such
    entry. *)
Definition next_round (rc : RoundCls) (event : Event.t) : option RoundCls :=
  dict_get (outgoing rc) event.

(** The round classes one transition away from [rc]. *)
Definition successors (rc : RoundCls) : list RoundCls := (outgoing rc).*2.

(** One transition of the application: some event leads from [a] to [b]. *)
Definition step (a b : RoundCls) : Prop :=
  ∃ event, (a, event, b) ∈ transitions.

(** The round classes at most [n] transitions away from [rc]. *)
Fixpoint reach (n : nat) (rc : RoundCls) : list RoundCls :=
  match n with
  | 0 => [rc]
  | S k =>
      let near := reach k rc in
      remove_dups (near ++ (near ≫= successors))
  end.

(** The round class [n] [DONE] transitions after [rc], stopping where no
    [DONE] transition is declared. *)
Fixpoint follow_done (n : nat) (rc : RoundCls) : RoundCls :=
  match n with
  | 0 => rc
  | S k =>
      match next_round rc Event.DONE with
      | Some rc' => follow_done k rc'
      | None => rc
      end
  end.

End LiquidityProvisionAbciApp.

End LiquidityProvision.

(** ** price_estimation_abci/behaviours.py *)

Module PriceEstimation.

(** The round classes imported from [models.rounds]. *)
Inductive RoundCls : Type :=
| CollectObservationRound | CollectSignatureRound | DeploySafeRound
| EstimateConsensusRound | FinalizationRound | RegistrationRound
| TxHashRound.

#[global] Instance RoundCls_eq_dec : EqDecision RoundCls.
Proof. solve_decision. Defined.

(** Python values handled by the behaviours: the behaviours only pass
    them around and compare two addresses, so objects stay opaque. *)
Inductive value : Type :=
| PyNone
| PyStr (s : string)
| PyInt (z : Z)
| PyObject (id : positive).

#[global] Instance value_eq_dec : EqDecision value.
Proof. solve_decision. Defined.

(** The payload constructors imported from [models.payloads], with the
    arguments the behaviours give them. *)
Inductive Payload : Type :=
| DeploySafePayload (sender contract_address : value)
| EstimatePayload (sender estimate : value)
| FinalizationTxPayload (sender tx_hash : value)
| ObservationPayload (sender observation : value)
| RegistrationPayload (sender : value)
| SignaturePayload (sender signature_hex : value)
| TransactionHashPayload (sender safe_tx_hash : value).

(** What a behaviour does to the world outside its generator.  The first
    seven are the primitives of [BaseState]; the others read the agent
    context or the period state, log, or evaluate a Python expression on
    opaque values.  The environment answers each of them, or raises. *)
Inductive action : Type :=
| Sleep (delay : value)
| SendA2aTransaction (payload : Payload)
| WaitUntilRoundEnd
| WaitForMessage
| GetContractApiResponse (kwargs : list (string * value))
| SendRawTransaction (transaction : value)
| SendSigningRequest (raw_message : value) (is_deprecated_mode : bool)
| Yield
| ContextGet (attribute : string)
| PeriodStateGet (attribute : string)
| LoggerInfo (format : string) (args : list value)
| PyEval (expression : string) (args : list value).

(** A generator: it returns, dies of an exception, or performs an action
    and goes on with the environment's answer ([None]: the action raised). *)
Inductive gen (R : Type) : Type :=
| Return (r : R)
| Raise
| Do (a : action) (k : option value → gen R).

Arguments Return {R} r.
Arguments Raise {R}.
Arguments Do {R} a k.

(** [yield from] a sub-generator, then continue with its return value. *)
Fixpoint gen_bind {A B} (f : A → gen B) (g : gen A) : gen B :=
  match g with
  | Return r => f r
  | Raise => Raise
  | Do a k => Do a (λ answer, gen_bind f (k answer))
  end.

#[global] Instance gen_ret : MRet gen := fun A a => Return a.
#[global] Instance gen_mbind : MBind gen := fun A B f g => gen_bind f g.

Definition perform (a : action) : gen value :=
  Do a (λ answer,
    match answer with
    | Some v => Return v
    | None => Raise
    end).

Definition sleep (delay : value) : gen unit :=
  _ ← perform (Sleep delay); mret tt.
Definition send_a2a_transaction (payload : Payload) : gen unit :=
  _ ← perform (SendA2aTransaction payload); mret tt.
Definition wait_until_round_end : gen unit :=
  _ ← perform WaitUntilRoundEnd; mret tt.
Definition wait_for_message : gen value := perform WaitForMessage.
Definition get_contract_api_response (kwargs : list (string * value))
  : gen value := perform (GetContractApiResponse kwargs).
Definition send_raw_transaction (transaction : value) : gen value :=
  perform (SendRawTransaction transaction).
Definition _send_signing_request (raw_message : value)
  (is_deprecated_mode : bool) : gen unit :=
  _ ← perform (SendSigningRequest raw_message is_deprecated_mode); mret tt.
Definition context (attribute : string) : gen value :=
  perform (ContextGet attribute).
Definition period_state (attribute : string) : gen value :=
  perform (PeriodStateGet attribute).
Definition logger_info (format : string) (args : list value) : gen unit :=
  _ ← perform (LoggerInfo format args); mret tt.
Definition py (expression : string) (args : list value) : gen value :=
  perform (PyEval expression args).

(** The behaviour states of the file. *)
Inductive Behaviour : Type :=
| InitialDelayState | RegistrationBehaviour | DeploySafeBehaviour
| ObserveBehaviour | EstimateBehaviour | TransactionHashBehaviour
| SignatureBehaviour | FinalizeBehaviour | EndBehaviour.

#[global] Instance Behaviour_eq_dec : EqDecision Behaviour.
Proof. solve_decision. Defined.

(** [state_id] *)
Definition state_id (b : Behaviour) : string :=
  match b with
  | InitialDelayState => "initial_delay"
  | RegistrationBehaviour => "register"
  | DeploySafeBehaviour => "deploy_safe"
  | ObserveBehaviour => "observe"
  | EstimateBehaviour => "estimate"
  | TransactionHashBehaviour => "tx_hash"
  | SignatureBehaviour => "sign"
  | FinalizeBehaviour => "finalize"
  | EndBehaviour => "end"
  end.

(** [matching_round] as the class body declares it; [None] for a class
    whose body declares none. *)
Definition matching_round (b : Behaviour) : option RoundCls :=
  match b with
  | InitialDelayState => None
  | RegistrationBehaviour => Some RegistrationRound
  | DeploySafeBehaviour => Some DeploySafeRound
  | ObserveBehaviour => Some CollectObservationRound
  | EstimateBehaviour => Some EstimateConsensusRound
  | TransactionHashBehaviour => Some TxHashRound
  | SignatureBehaviour => Some CollectSignatureRound
  | FinalizeBehaviour => Some FinalizationRound
  | EndBehaviour => None
  end.

(** [PriceEstimationConsensusBehaviour.all_ordered_states] *)
Definition all_ordered_states : list Behaviour :=
  [ InitialDelayState; RegistrationBehaviour; DeploySafeBehaviour;
    ObserveBehaviour; EstimateBehaviour; TransactionHashBehaviour;
    SignatureBehaviour; FinalizeBehaviour; EndBehaviour ].

(** *** The [async_act] generators, class by class *)

Module InitialDelayState.
Definition async_act : gen unit :=
  delay ← context "params.initial_delay";
  sleep delay.
End InitialDelayState.

Module RegistrationBehaviour.
Definition async_act : gen unit :=
  agent_address ← context "agent_address";
  let payload := RegistrationPayload agent_address in
  _ ← send_a2a_transaction payload;
  wait_until_round_end.
End RegistrationBehaviour.

Module DeploySafeBehaviour.
Definition _not_deployer_act : gen unit :=
  logger_info "I am not the designated sender, waiting until next round..." [].

Definition _send_deploy_transaction : gen value :=
  participants ← period_state "participants";
  owners ← py "list" [participants];
  threshold ← context "params.consensus_params.two_thirds_threshold";
  contract_id ← py "str(GnosisSafeContract.contract_id)" [];
  agent_address ← context "agent_address";
  contract_api_response ← get_contract_api_response
    [ ("contract_address", PyNone);
      ("contract_id", contract_id);
      ("contract_callable", PyStr "get_deploy_transaction");
      ("owners", owners);
      ("threshold", threshold);
      ("deployer_address", agent_address) ];
  raw_transaction ← py "raw_transaction" [contract_api_response];
  contract_address ← py "body.pop" [raw_transaction; PyStr "contract_address"];
  tx_hash ← send_raw_transaction raw_transaction;
  _ ← logger_info "Deployment tx hash: {tx_hash}" [tx_hash];
  mret contract_address.

Definition _deployer_act : gen unit :=
  _ ← logger_info "I am the designated sender, deploying the safe contract..." [];
  contract_address ← _send_deploy_transaction;
  agent_address ← context "agent_address";
  let payload := DeploySafePayload agent_address contract_address in
  send_a2a_transaction payload.

Definition async_act : gen unit :=
  agent_address ← context "agent_address";
  safe_sender_address ← period_state "safe_sender_address";
  _ ← (if decide (agent_address ≠ safe_sender_address)
       then _not_deployer_act
       else _deployer_act);
  _ ← wait_until_round_end;
  safe_contract_address ← period_state "safe_contract_address";
  logger_info "Safe contract address: {safe_contract_address}"
    [safe_contract_address].
End DeploySafeBehaviour.

Module ObserveBehaviour.
Definition async_act : gen unit :=
  currency_id ← context "params.currency_id";
  convert_id ← context "params.convert_id";
  observation ← py "context.price_api.get_price" [currency_id; convert_id];
  api_id ← context "price_api.api_id";
  _ ← logger_info
        "Got observation of {currency_id} price in {convert_id} from {api_id}: {observation}"
        [currency_id; convert_id; api_id; observation];
  agent_address ← context "agent_address";
  let payload := ObservationPayload agent_address observation in
  _ ← send_a2a_transaction payload;
  wait_until_round_end.
End ObserveBehaviour.

Module EstimateBehaviour.
Definition async_act : gen unit :=
  currency_id ← context "params.currency_id";
  convert_id ← context "params.convert_id";
  observation_payloads ← period_state "observations";
  observations ←
    py "[obs_payload.observation for obs_payload in observation_payloads]"
      [observation_payloads];
  _ ← logger_info "Using observations {observations} to compute the estimate."
        [observations];
  estimate ← py "context.estimator.aggregate" [observations];
  _ ← logger_info "Got estimate of {currency_id} price in {convert_id}: {estimate}"
        [currency_id; convert_id; estimate];
  agent_address ← context "agent_address";
  let payload := EstimatePayload agent_address estimate in
  _ ← send_a2a_transaction payload;
  wait_until_round_end.
End EstimateBehaviour.

Module TransactionHashBehaviour.
Definition _not_sender_act : gen unit :=
  logger_info "I am not the designated sender, waiting until next round..." [].

Definition _sender_act : gen unit :=
  _ ← logger_info "I am the designated sender, committing the transaction hash..." [];
  most_voted_estimate ← period_state "most_voted_estimate";
  _ ← logger_info "Consensus reached on estimate: {most_voted_estimate}"
        [most_voted_estimate];
  data ← period_state "encoded_estimate";
  safe_contract_address ← period_state "safe_contract_address";
  contract_id ← py "str(GnosisSafeContract.contract_id)" [];
  agent_address ← context "agent_address";
  contract_api_msg ← get_contract_api_response
    [ ("contract_address", safe_contract_address);
      ("contract_id", contract_id);
      ("contract_callable", PyStr "get_raw_safe_transaction_hash");
      ("to_address", agent_address);
      ("value", PyInt 0);
      ("data", data) ];
  safe_tx_hash ← py "raw_transaction.body['tx_hash']" [contract_api_msg];
  safe_tx_hash ← py "[2:]" [safe_tx_hash];
  _ ← logger_info "Hash of the Safe transaction: {safe_tx_hash}" [safe_tx_hash];
  agent_address ← context "agent_address";
  let payload := TransactionHashPayload agent_address safe_tx_hash in
  send_a2a_transaction payload.

Definition async_act : gen unit :=
  agent_address ← context "agent_address";
  safe_sender_address ← period_state "safe_sender_address";
  _ ← (if decide (agent_address ≠ safe_sender_address)
       then _not_sender_act
       else _sender_act);
  wait_until_round_end.
End TransactionHashBehaviour.

Module SignatureBehaviour.
Definition _get_safe_tx_signature : gen value :=
  safe_tx_hash ← period_state "safe_tx_hash";
  safe_tx_hash_bytes ← py "binascii.unhexlify" [safe_tx_hash];
  _ ← _send_signing_request safe_tx_hash_bytes true;
  signature_response ← wait_for_message;
  signature_hex ← py "signed_message.body" [signature_response];
  signature_hex ← py "[2:]" [signature_hex];
  _ ← logger_info "Signature: {signature_hex}" [signature_hex];
  mret signature_hex.

Definition async_act : gen unit :=
  signature_hex ← _get_safe_tx_signature;
  agent_address ← context "agent_address";
  let payload := SignaturePayload agent_address signature_hex in
  _ ← send_a2a_transaction payload;
  wait_until_round_end.
End SignatureBehaviour.

Module FinalizeBehaviour.
Definition _not_sender_act : gen unit :=
  logger_info "I am not the designated sender, waiting until next round..." [].

Definition _send_safe_transaction : gen value :=
  safe_contract_address ← period_state "safe_contract_address";
  contract_id ← py "str(GnosisSafeContract.contract_id)" [];
  sender_address ← context "agent_address";
  participants ← period_state "participants";
  owners ← py "tuple" [participants];
  to_address ← context "agent_address";
  data ← period_state "encoded_estimate";
  participant_to_signature ← period_state "participant_to_signature";
  signatures_by_owner ← py "dict" [participant_to_signature];
  contract_api_msg ← get_contract_api_response
    [ ("contract_address", safe_contract_address);
      ("contract_id", contract_id);
      ("contract_callable", PyStr "get_raw_safe_transaction");
      ("sender_address", sender_address);
      ("owners", owners);
      ("to_address", to_address);
      ("value", PyInt 0);
      ("data", data);
      ("signatures_by_owner", signatures_by_owner) ];
  transaction ← py "raw_transaction" [contract_api_msg];
  tx_hash ← send_raw_transaction transaction;
  _ ← logger_info "Finalization tx hash: {tx_hash}" [tx_hash];
  mret tx_hash.

Definition _sender_act : gen unit :=
  _ ← logger_info "I am the designated sender, sending the safe transaction..." [];
  tx_hash ← _send_safe_transaction;
  _ ← logger_info "Transaction hash of the final transaction: {tx_hash}" [tx_hash];
  participant_to_signature ← context "state.period_state.participant_to_signature";
  signatures ← py "pprint.pformat" [participant_to_signature];
  _ ← logger_info "Signatures: {signatures}" [signatures];
  agent_address ← context "agent_address";
  let payload := FinalizationTxPayload agent_address tx_hash in
  send_a2a_transaction payload.

Definition async_act : gen unit :=
  agent_address ← context "agent_address";
  safe_sender_address ← period_state "safe_sender_address";
  _ ← (if decide (agent_address ≠ safe_sender_address)
       then _not_sender_act
       else _sender_act);
  wait_until_round_end.
End FinalizeBehaviour.

Module EndBehaviour.
Definition async_act : gen unit :=
  most_voted_estimate ← period_state "most_voted_estimate";
  final_tx_hash ← period_state "final_tx_hash";
  _ ← logger_info
        "Finalized estimate: {most_voted_estimate} with transaction hash: {final_tx_hash}"
        [most_voted_estimate; final_tx_hash];
  _ ← logger_info "Period end." [];
  _ ← perform Yield;
  mret tt.
End EndBehaviour.

(** The generator a behaviour state runs. *)
Definition async_act (b : Behaviour) : gen unit :=
  match b with
  | InitialDelayState => InitialDelayState.async_act
  | RegistrationBehaviour => RegistrationBehaviour.async_act
  | DeploySafeBehaviour => DeploySafeBehaviour.async_act
  | ObserveBehaviour => ObserveBehaviour.async_act
  | EstimateBehaviour => EstimateBehaviour.async_act
  | TransactionHashBehaviour => TransactionHashBehaviour.async_act
  | SignatureBehaviour => SignatureBehaviour.async_act
  | FinalizeBehaviour => FinalizeBehaviour.async_act
  | EndBehaviour => EndBehaviour.async_act
  end.

(** *** Executions *)

(** An environment answers the [n]-th action of an execution. *)
Definition env : Type := nat → action → option value.

(** The actions one execution of a generator performs, in order, against
    an environment, counting from step [n]. *)
Fixpoint trace {R} (e : env) (n : nat) (g : gen R) : list action :=
  match g with
  | Return _ => []
  | Raise => []
  | Do a k => a :: trace e (S n) (k (e n a))
  end.

Definition is_send (a : action) : bool :=
  match a with
  | SendA2aTransaction _ => true
  | _ => false
  end.

Definition is_round_end (a : action) : bool :=
  match a with
  | WaitUntilRoundEnd => true
  | _ => false
  end.

(** Number of [send_a2a_transaction] calls in a run. *)
Definition nb_sends (tr : list action) : nat :=
  length (List.filter is_send tr).

(** What a run does once it has suspended at [wait_until_round_end]. *)
Fixpoint after_round_end (tr : list action) : list action :=
  match tr with
  | [] => []
  | a :: tr' => if is_round_end a then tr' else after_round_end tr'
  end.

(** *** Observations on executions *)

(** The payloads a run submits, in order. *)
Fixpoint sent (tr : list action) : list Payload :=
  match tr with
  | [] => []
  | SendA2aTransaction payload :: tr' => payload :: sent tr'
  | _ :: tr' => sent tr'
  end.

(** The first argument of every payload constructor. *)
Definition payload_sender (p : Payload) : value :=
  match p with
  | DeploySafePayload sender _ => sender
  | EstimatePayload sender _ => sender
  | FinalizationTxPayload sender _ => sender
  | ObservationPayload sender _ => sender
  | RegistrationPayload sender => sender
  | SignaturePayload sender _ => sender
  | TransactionHashPayload sender _ => sender
  end.

(** The payload class the code of a behaviour state constructs. *)
Definition builds (b : Behaviour) (p : Payload) : bool :=
  match b, p with
  | RegistrationBehaviour, RegistrationPayload _ => true
  | DeploySafeBehaviour, DeploySafePayload _ _ => true
  | ObserveBehaviour, ObservationPayload _ _ => true
  | EstimateBehaviour, EstimatePayload _ _ => true
  | TransactionHashBehaviour, TransactionHashPayload _ _ => true
  | SignatureBehaviour, SignaturePayload _ _ => true
  | FinalizeBehaviour, FinalizationTxPayload _ _ => true
  | _, _ => false
  end.

(** The primitives of [BaseState]: the actions that suspend the generator
    or reach outside the agent. *)
Definition is_primitive (a : action) : bool :=
  match a with
  | Sleep _ | SendA2aTransaction _ | WaitUntilRoundEnd | WaitForMessage
  | GetContractApiResponse _ | SendRawTransaction _ | SendSigningRequest _ _
  | Yield => true
  | _ => false
  end.

(** The actions that reach the ledger, the signer or the other agents. *)
Definition is_request (a : action) : bool :=
  match a with
  | SendA2aTransaction _ | GetContractApiResponse _ | SendRawTransaction _
  | SendSigningRequest _ _ => true
  | _ => false
  end.

(** Number of [wait_until_round_end] calls in a run. *)
Definition nb_round_ends (tr : list action) : nat :=
  length (List.filter is_round_end tr).

(** An environment in which no action raises. *)
Definition never_raises (e : env) : Prop := ∀ n a, is_Some (e n a).

(** An environment in which the context always gives [address] for
    [agent_address]. *)
Definition agent_is (address : value) (e : env) : Prop :=
  ∀ n, e n (ContextGet "agent_address") = Some address.

(** The comparison the sender-only behaviours start with: the answers to
    their first two reads, [self.context.agent_address] and
    [self.period_state.safe_sender_address], are equal. *)
Definition designated (e : env) : bool :=
  bool_decide (e 0 (ContextGet "agent_address")
               = e 1 (PeriodStateGet "safe_sender_address")).

(** The behaviour states that act only as the designated sender. *)
Definition sender_only (b : Behaviour) : bool :=
  match b with
  | DeploySafeBehaviour | TransactionHashBehaviour | FinalizeBehaviour => true
  | _ => false
  end.

(** The answer a behaviour state needs before it builds its payload: of
    the raw transaction it sent, of the contract call, or of the signer. *)
Definition awaited (b : Behaviour) (a : action) : bool :=
  match b, a with
  | DeploySafeBehaviour, SendRawTransaction _ => true
  | FinalizeBehaviour, SendRawTransaction _ => true
  | TransactionHashBehaviour, GetContractApiResponse _ => true
  | SignatureBehaviour, WaitForMessage => true
  | _, _ => false
  end.

(** Every [send_a2a_transaction] of a run comes after an action that
    satisfies [f] ([seen]: one has already occurred). *)
Fixpoint sends_follow (f : action → bool) (seen : bool) (tr : list action)
  : bool :=
  match tr with
  | [] => true
  | a :: tr' =>
      if is_send a then seen && sends_follow f seen tr'
      else sends_follow f (seen || f a) tr'
  end.

End PriceEstimation.

(** ** Concrete rounds and environments *)

Module Examples.
Import LiquidityProvision.

Definition go_strategy : dict :=
  {[ "action" := PyStrategyType StrategyType.GO ]}.

Definition wait_strategy : dict :=
  {[ "action" := PyStrategyType StrategyType.WAIT ]}.

(** Four participants: the quorum is three. *)
Definition four_agents : gset string :=
  {[ "agent_1"; "agent_2"; "agent_3"; "agent_4" ]}.

(** Agents 1 to 3 submit the same strategy, agent 4 is silent. *)
Definition three_votes (s : dict) : collection_t :=
  <[ "agent_1" := mkPayload "agent_1" s ]>
  (<[ "agent_2" := mkPayload "agent_2" s ]>
  (<[ "agent_3" := mkPayload "agent_3" s ]> ∅)).

(** Agents 1 and 2 submit the same strategy, the others are silent. *)
Definition two_votes (s : dict) : collection_t :=
  <[ "agent_1" := mkPayload "agent_1" s ]>
  (<[ "agent_2" := mkPayload "agent_2" s ]> ∅).

(** Two against two: everybody has voted and no value has three votes. *)
Definition split_votes : collection_t :=
  <[ "agent_3" := mkPayload "agent_3" wait_strategy ]>
  (<[ "agent_4" := mkPayload "agent_4" wait_strategy ]>
  (two_votes go_strategy)).

(** A strategy evaluation round of the four agents, entered with the
    strategy [previous] on record (from an earlier pass, if any) and
    holding the collection [c]. *)
Definition round_of (previous : option dict) (c : collection_t)
  : StrategyEvaluationRound :=
  {| period_state := PeriodState_init (Some four_agents) None previous;
     collection := c |}.

(** The state the application starts with: nothing is set. *)
Definition empty_state : PeriodState := PeriodState_init None None None.

(** An environment in which nothing raises and every answer is the
    address of the agent, which is therefore the designated sender. *)
Definition agent_1 : PriceEstimation.env :=
  λ _ _, Some (PriceEstimation.PyStr "agent_1").

(** The same environment, except that the period state names another
    agent as the designated sender (the second read of the sender-only
    behaviours). *)
Definition agent_1_idle : PriceEstimation.env :=
  λ n _, if decide (n = 1)
         then Some (PriceEstimation.PyStr "agent_2")
         else Some (PriceEstimation.PyStr "agent_1").

End Examples.

(** * Properties *)

Import LiquidityProvision.

(** ** Counting votes *)

Section counting.
Implicit Types (c : collection_t) (v : dict) (P : gset string).

Lemma voters_size c v : size (voters c v) = payloads_count c v.
Proof. unfold voters, payloads_count. apply size_dom. Qed.

Lemma voters_subseteq c v : voters c v ⊆ dom c.
Proof. apply dom_filter_subseteq. Qed.

Lemma voters_elem_of c v a :
  a ∈ voters c v ↔ ∃ p, c !! a = Some p ∧ strategy p = v.
Proof.
  unfold voters. rewrite elem_of_dom. split.
  - intros [p Hp]. apply map_lookup_filter_Some in Hp as [Hp Hv]. eauto.
  - intros (p & Hp & Hv). exists p. by apply map_lookup_filter_Some.
Qed.

Lemma voters_disjoint c v1 v2 : v1 ≠ v2 → voters c v1 ## voters c v2.
Proof.
  intros Hne a [p1 [H1 E1]]%voters_elem_of [p2 [H2 E2]]%voters_elem_of.
  congruence.
Qed.

(** Every per-value count is bounded by the largest one. *)
Lemma payloads_count_le_largest c v : payloads_count c v ≤ largest_count c.
Proof.
  destruct (decide (payloads_count c v = 0)) as [->|Hpos]; [lia|].
  rewrite <- voters_size in Hpos.
  apply size_non_empty_iff, set_choose in Hpos as [a Ha].
  apply voters_elem_of in Ha as (p & Hp & <-).
  unfold largest_count. apply max_list_elem_of_le.
  apply list_elem_of_fmap. exists (a, p). split; [done|].
  by apply elem_of_map_to_list.
Qed.

(** The largest count is the count of a submitted value, unless nothing
    was submitted. *)
Lemma largest_count_attained c :
  c ≠ ∅ → ∃ a p, c !! a = Some p ∧ payloads_count c (strategy p) = largest_count c.
Proof.
  intros Hne. unfold largest_count.
  set (l := (λ kp, payloads_count c (strategy kp.2)) <$> map_to_list c).
  assert (Hl : l ≠ []).
  { unfold l. intros Hnil. apply fmap_nil_inv in Hnil.
    by apply map_to_list_empty_iff in Hnil. }
  apply max_list_elem_of in Hl.
  apply list_elem_of_fmap in Hl as ([a p] & Heq & Hin).
  apply elem_of_map_to_list in Hin. exists a, p. by split.
Qed.

Lemma largest_count_empty : largest_count ∅ = 0.
Proof. unfold largest_count. by rewrite map_to_list_empty. Qed.

Lemma two_thirds_threshold_pos n : 1 ≤ two_thirds_threshold n.
Proof. unfold two_thirds_threshold. lia. Qed.

(** The largest count reaches a positive bound iff some value's count does. *)
Lemma largest_count_reaches c q :
  1 ≤ q → q ≤ largest_count c ↔ ∃ v, q ≤ payloads_count c v.
Proof.
  intros Hq. split.
  - intros Hle. destruct (decide (c = ∅)) as [->|Hne].
    + rewrite largest_count_empty in Hle. lia.
    + destruct (largest_count_attained c Hne) as (a & p & _ & Heq).
      exists (strategy p). lia.
  - intros [v Hv]. pose proof (payloads_count_le_largest c v). lia.
Qed.

(** Floor division by three, as inequalities. *)
Lemma two_thirds_threshold_spec n q :
  two_thirds_threshold n = q ↔ 2 * n < 3 * q ∧ 3 * q ≤ 2 * n + 3.
Proof.
  unfold two_thirds_threshold.
  pose proof (Nat.div_mod_eq (2 * n) 3) as Hdm.
  pose proof (Nat.mod_upper_bound (2 * n) 3) as Hub.
  lia.
Qed.

(** Two disjoint sets of participants cannot both contain a quorum. *)
Lemma quorum_disjoint P (A B : gset string) :
  A ⊆ P → B ⊆ P → A ## B →
  ¬ (two_thirds_threshold (size P) ≤ size A ∧
     two_thirds_threshold (size P) ≤ size B).
Proof.
  intros HA HB Hdisj [H1 H2].
  assert (size A + size B ≤ size P) as Hsum.
  { rewrite <- size_union by done. apply subseteq_size.
    by apply union_subseteq. }
  destruct (proj1 (two_thirds_threshold_spec (size P) _) eq_refl) as [Hq _].
  lia.
Qed.

End counting.

(** ** The strategy evaluation round *)

Section strategy_evaluation.
Implicit Types (self : StrategyEvaluationRound) (P : gset string) (v : dict).

Lemma nb_participants_set (st : PeriodState) P :
  _participants st = Some P → nb_participants st = Ok (size P).
Proof. unfold nb_participants, participants. by intros ->. Qed.

Lemma threshold_reached_set self P :
  _participants (period_state self) = Some P →
  threshold_reached self =
    Ok (bool_decide
          (two_thirds_threshold (size P) ≤ largest_count (collection self))).
Proof.
  intros HP. unfold threshold_reached.
  by rewrite (nb_participants_set _ _ HP).
Qed.

(** Two different values cannot both have a quorum of senders among the
    participants. *)
Lemma quorum_unique (c : collection_t) P v1 v2 :
  dom c ⊆ P →
  two_thirds_threshold (size P) ≤ payloads_count c v1 →
  two_thirds_threshold (size P) ≤ payloads_count c v2 →
  v1 = v2.
Proof.
  intros Hdom H1 H2. destruct (decide (v1 = v2)) as [|Hne]; [done|].
  exfalso. apply (quorum_disjoint P (voters c v1) (voters c v2)).
  - etrans; [apply voters_subseteq|done].
  - etrans; [apply voters_subseteq|done].
  - by apply voters_disjoint.
  - by rewrite !voters_size.
Qed.

(** With a quorum behind [v], [v] is the most voted payload. *)
Lemma most_voted_payload_quorum self P v :
  _participants (period_state self) = Some P →
  dom (collection self) ⊆ P →
  two_thirds_threshold (size P) ≤ payloads_count (collection self) v →
  most_voted_payload self = Ok v.
Proof.
  intros HP Hdom Hv. unfold most_voted_payload.
  rewrite (threshold_reached_set _ _ HP).
  pose proof (payloads_count_le_largest (collection self) v) as Hle.
  rewrite bool_decide_eq_true_2 by lia.
  change (Ok true ≫= ?f) with (f true). cbv beta zeta iota.
  assert (collection self ≠ ∅) as Hne.
  { intros Hemp. rewrite Hemp, largest_count_empty in Hle. rewrite Hemp in Hv.
    pose proof (two_thirds_threshold_pos (size P)). lia. }
  destruct (largest_count_attained _ Hne) as (a & p & Hp & Heq).
  destruct (list_find _ _) as [[i [a' p']]|] eqn:Hfind.
  - apply list_find_Some in Hfind as (_ & Hmax & _). simpl in *.
    f_equal. apply (quorum_unique (collection self) P); [done| |done].
    rewrite Hmax. lia.
  - exfalso. apply list_find_None in Hfind.
    rewrite Forall_forall in Hfind. apply (Hfind (a, p)); [|done].
    by apply elem_of_map_to_list.
Qed.

(** The state [end_block] builds when the threshold is reached with [v]
    the most voted payload. *)
Lemma end_block_reached_unfold self P v :
  _participants (period_state self) = Some P →
  dom (collection self) ⊆ P →
  two_thirds_threshold (size P) ≤ payloads_count (collection self) v →
  threshold_reached self = Ok true ∧
  end_block self =
    (s ← most_voted_strategy (period_state self);
     action ← getitem s "action";
     mret (Some
       (update (period_state self)
          {| kw_participants := None;
             kw_participant_to_strategy := Some (Some (collection self));
             kw_most_voted_strategy := Some (Some v) |},
        if decide (action = PyStrategyType StrategyType.GO)
        then Event.DONE else Event.WAIT))).
Proof.
  intros HP Hdom Hv.
  pose proof (payloads_count_le_largest (collection self) v) as Hle.
  assert (threshold_reached self = Ok true) as Hreached.
  { rewrite (threshold_reached_set _ _ HP).
    by rewrite bool_decide_eq_true_2 by lia. }
  split; [done|]. unfold end_block. rewrite Hreached.
  change (Ok true ≫= ?f) with (f true). cbv beta iota.
  rewrite (most_voted_payload_quorum self P v HP Hdom Hv).
  reflexivity.
Qed.

(** C1, amended: in a strategy evaluation round whose senders are
    participants, with fewer than quorum-many matching submissions for
    every value the threshold is reported not reached; and when some value
    [v] has quorum-many senders the threshold is reached, the state that
    [end_block] builds keeps the participants and carries the full
    collection as [participant_to_strategy] and [v] as
    [most_voted_strategy], every result of [end_block] is that state with
    the event [DONE] or [WAIT], and, when the strategy recorded in the
    round's period state agrees with [v] on its ["action"], [end_block]
    returns that state with [DONE] if the action is [GO] and with [WAIT]
    otherwise. *)
Theorem end_block_threshold_reached self P :
  _participants (period_state self) = Some P →
  dom (collection self) ⊆ P →
  let c := collection self in
  let q := two_thirds_threshold (size P) in
  ((∀ v, payloads_count c v < q) → threshold_reached self = Ok false) ∧
  (∀ v, q ≤ payloads_count c v →
     let state :=
       update (period_state self)
         {| kw_participants := None;
            kw_participant_to_strategy := Some (Some c);
            kw_most_voted_strategy := Some (Some v) |} in
     threshold_reached self = Ok true ∧
     _participants state = Some P ∧
     _participant_to_strategy state = Some c ∧
     _most_voted_strategy state = Some v ∧
     (∀ res, end_block self = Ok res →
        ∃ event, res = Some (state, event) ∧
                 (event = Event.DONE ∨ event = Event.WAIT)) ∧
     (∀ s a,
        _most_voted_strategy (period_state self) = Some s →
        s !! "action" = Some a →
        v !! "action" = Some a →
        end_block self =
          Ok (Some (state,
                    if decide (a = PyStrategyType StrategyType.GO)
                    then Event.DONE else Event.WAIT)))).
Proof.
  intros HP Hdom c q. split.
  - intros Hlt. rewrite (threshold_reached_set _ _ HP). f_equal.
    apply bool_decide_eq_false_2. intros Hle.
    apply largest_count_reaches in Hle as [v Hv];
      [|apply two_thirds_threshold_pos].
    specialize (Hlt v). unfold c, q in Hlt. lia.
  - intros v Hv state.
    destruct (end_block_reached_unfold self P v HP Hdom Hv) as [Hreached Heb].
    split; [done|]. split; [by simpl|]. split; [done|]. split; [done|].
    split.
    + intros res. rewrite Heb. unfold most_voted_strategy.
      destruct (_most_voted_strategy (period_state self)) as [s|];
        [|discriminate].
      simpl. unfold getitem. destruct (s !! "action") as [a|];
        [|discriminate].
      simpl. intros [= <-]. eexists. split; [reflexivity|].
      destruct (decide _); auto.
    + intros s a Hs Hsa Hva. rewrite Heb. unfold most_voted_strategy.
      rewrite Hs. simpl. unfold getitem. by rewrite Hsa.
Qed.

(** C2: when the threshold has not been reached and the participants who
    have not yet submitted plus the current leading count stay below the
    quorum, [is_majority_possible] is false and [end_block] returns the
    event [NO_MAJORITY] with a period state that keeps the participant set
    and has neither a collection nor a most voted strategy. *)
Theorem end_block_no_majority self P :
  _participants (period_state self) = Some P →
  threshold_reached self = Ok false →
  (Z.of_nat (size P) - Z.of_nat (size (collection self))
   + Z.of_nat (largest_count (collection self))
   < Z.of_nat (two_thirds_threshold (size P)))%Z →
  is_majority_possible (collection self) (size P) = false ∧
  end_block self =
    Ok (Some ({| _participants := Some P;
                 _participant_to_strategy := None;
                 _most_voted_strategy := None |}, Event.NO_MAJORITY)).
Proof.
  intros HP Hnot Hlt.
  assert (is_majority_possible (collection self) (size P) = false) as Himp.
  { unfold is_majority_possible. apply negb_false_iff. by apply Z.ltb_lt. }
  split; [done|]. unfold end_block. rewrite Hnot.
  change (Ok false ≫= ?f) with (f false). cbv beta iota.
  rewrite (nb_participants_set _ _ HP).
  change (Ok ?x ≫= ?f) with (f x). cbv beta. rewrite Himp. simpl.
  unfold _return_no_majority_event, reset, participants. by rewrite HP.
Qed.

(** C6: when the threshold has not been reached and a majority is still
    possible, [end_block] returns [None]; the round it was called on is
    the argument, which a function does not change, so every further tick
    on it returns [None] as well. *)
Theorem end_block_not_yet self n :
  nb_participants (period_state self) = Ok n →
  threshold_reached self = Ok false →
  is_majority_possible (collection self) n = true →
  end_block self = Ok None.
Proof.
  intros Hn Hnot Hposs. unfold end_block. rewrite Hnot.
  change (Ok false ≫= ?f) with (f false). cbv beta iota.
  rewrite Hn. change (Ok ?x ≫= ?f) with (f x). cbv beta.
  by rewrite Hposs.
Qed.

End strategy_evaluation.

Section strategy_evaluation_examples.
Import Examples.

(** Witness of C1: three of four agents vote to go, in a round entered with
    that strategy on record. *)
Lemma end_block_threshold_reached_witness :
  end_block (round_of (Some go_strategy) (three_votes go_strategy)) =
  Ok (Some
        (update (PeriodState_init (Some four_agents) None (Some go_strategy))
           {| kw_participants := None;
              kw_participant_to_strategy := Some (Some (three_votes go_strategy));
              kw_most_voted_strategy := Some (Some go_strategy) |},
         Event.DONE)).
Proof.
  assert (dom (three_votes go_strategy) ⊆ four_agents) as Hdom.
  { apply (bool_decide_unpack _). vm_compute. exact I. }
  destruct (end_block_threshold_reached
              (round_of (Some go_strategy) (three_votes go_strategy))
              four_agents eq_refl Hdom) as [_ Hreached].
  destruct (Hreached go_strategy) as (_ & _ & _ & _ & _ & Hreturns).
  { apply Nat.leb_le. vm_compute. reflexivity. }
  exact (Hreturns go_strategy (PyStrategyType StrategyType.GO)
           eq_refl eq_refl eq_refl).
Defined.

(** Counterexample to C1 as stated: three of four agents vote to wait, in
    a round entered with that strategy on record; the threshold is
    reached and the event is not [DONE]. *)
Lemma end_block_done_counterexample :
  threshold_reached (round_of (Some wait_strategy) (three_votes wait_strategy))
    = Ok true ∧
  ¬ ∃ st, end_block (round_of (Some wait_strategy) (three_votes wait_strategy))
          = Ok (Some (st, Event.DONE)).
Proof.
  split; [vm_compute; reflexivity|].
  intros [st Hst]. vm_compute in Hst. discriminate Hst.
Qed.

(** What that round returns: the event [WAIT]. *)
Example end_block_wait :
  end_block (round_of (Some wait_strategy) (three_votes wait_strategy)) =
  Ok (Some
        (PeriodState_init (Some four_agents)
           (Some (three_votes wait_strategy)) (Some wait_strategy),
         Event.WAIT)).
Proof. vm_compute. reflexivity. Qed.

(** The event is read from the period state the round was created with,
    not from the state being returned: on the first entry nothing is
    recorded there and [end_block] raises, and on a later entry the
    strategy of the earlier pass decides the event. *)
Example end_block_first_entry :
  end_block (round_of None (three_votes go_strategy)) =
  Err (AEAEnforceError "'most_voted_strategy' field is None").
Proof. vm_compute. reflexivity. Qed.

Example end_block_earlier_strategy :
  end_block (round_of (Some wait_strategy) (three_votes go_strategy)) =
  Ok (Some
        (PeriodState_init (Some four_agents)
           (Some (three_votes go_strategy)) (Some go_strategy),
         Event.WAIT)).
Proof. vm_compute. reflexivity. Qed.

(** Witness of C2: two votes against two among four agents. *)
Lemma end_block_no_majority_witness :
  end_block (round_of None split_votes) =
  Ok (Some ({| _participants := Some four_agents;
               _participant_to_strategy := None;
               _most_voted_strategy := None |}, Event.NO_MAJORITY)).
Proof.
  refine (proj2 (end_block_no_majority (round_of None split_votes)
                   four_agents eq_refl _ _)).
  - vm_compute. reflexivity.
  - vm_compute. reflexivity.
Defined.

(** Witness of C6: two of four agents have voted, the other two can still
    bring the value to three. *)
Lemma end_block_not_yet_witness :
  end_block (round_of None (two_votes go_strategy)) = Ok None.
Proof.
  apply (end_block_not_yet (round_of None (two_votes go_strategy)) 4).
  - vm_compute. reflexivity.
  - vm_compute. reflexivity.
  - vm_compute. reflexivity.
Defined.

End strategy_evaluation_examples.

(** ** The quorum *)

(** C3: for a participant set of size [N] (in particular for [N >= 1]) the
    quorum [q] is floor(2N/3) + 1, the number with [2N < 3q <= 2N + 3];
    [threshold_reached] is true exactly when some value has [q] senders;
    two disjoint subsets of the participants never both reach [q], and so
    two different values never both reach it in a round whose senders are
    participants. *)
Theorem two_thirds_threshold_quorum (P : gset string) :
  let N := size P in
  let q := two_thirds_threshold N in
  q = Z.to_nat (2 * Z.of_nat N / 3) + 1 ∧
  (2 * N < 3 * q ∧ 3 * q ≤ 2 * N + 3) ∧
  (∀ self : StrategyEvaluationRound,
     _participants (period_state self) = Some P →
     ∃ b, threshold_reached self = Ok b ∧
          (b = true ↔ ∃ v, q ≤ payloads_count (collection self) v)) ∧
  (∀ A B : gset string,
     A ⊆ P → B ⊆ P → A ## B → ¬ (q ≤ size A ∧ q ≤ size B)) ∧
  (∀ (self : StrategyEvaluationRound) (v1 v2 : dict),
     _participants (period_state self) = Some P →
     dom (collection self) ⊆ P →
     v1 ≠ v2 →
     ¬ (q ≤ payloads_count (collection self) v1 ∧
        q ≤ payloads_count (collection self) v2)).
Proof.
  intros N q. split; [|split; [|split; [|split]]].
  - unfold q, two_thirds_threshold. f_equal.
    rewrite <- (Nat2Z.id (2 * N / 3)). f_equal.
    rewrite Nat2Z.inj_div. f_equal. lia.
  - by apply two_thirds_threshold_spec.
  - intros self HP. eexists. split; [by apply threshold_reached_set|].
    rewrite bool_decide_eq_true.
    apply largest_count_reaches, two_thirds_threshold_pos.
  - intros A B. apply quorum_disjoint.
  - intros self v1 v2 _ Hdom Hne [H1 H2].
    apply Hne. by apply (quorum_unique (collection self) P).
Qed.

Lemma two_thirds_threshold_quorum_witness :
  two_thirds_threshold (size Examples.four_agents) = 3 ∧
  ¬ (3 ≤ size ({[ "agent_1"; "agent_2" ]} : gset string) ∧
     3 ≤ size ({[ "agent_3"; "agent_4" ]} : gset string)).
Proof.
  split; [vm_compute; reflexivity|].
  refine (proj1 (proj2 (proj2 (proj2
            (two_thirds_threshold_quorum Examples.four_agents)))) _ _ _ _ _).
  - apply (bool_decide_unpack _). vm_compute. exact I.
  - apply (bool_decide_unpack _). vm_compute. exact I.
  - apply (bool_decide_unpack _). vm_compute. exact I.
Defined.

(** ** The period state *)

(** C4: reading [most_voted_strategy] from a period state in which it is
    not set fails with the error of [enforce]; the accessor only ever
    returns the stored value, never a default; and once [update] has set
    the field to [v] the accessor returns [v]. *)
Theorem most_voted_strategy_ready (self : PeriodState) :
  (_most_voted_strategy self = None →
   most_voted_strategy self =
     Err (AEAEnforceError "'most_voted_strategy' field is None")) ∧
  (∀ v, most_voted_strategy self = Ok v → _most_voted_strategy self = Some v) ∧
  (∀ kw v, kw_most_voted_strategy kw = Some (Some v) →
           most_voted_strategy (update self kw) = Ok v).
Proof.
  unfold most_voted_strategy. split; [|split].
  - by intros ->.
  - destruct (_most_voted_strategy self); simpl; [|discriminate].
    by intros v [= <-].
  - intros kw v Hkw. simpl. by rewrite Hkw.
Qed.

Lemma most_voted_strategy_ready_witness :
  most_voted_strategy Examples.empty_state =
    Err (AEAEnforceError "'most_voted_strategy' field is None") ∧
  most_voted_strategy
    (update Examples.empty_state
       {| kw_participants := None;
          kw_participant_to_strategy := None;
          kw_most_voted_strategy := Some (Some Examples.go_strategy) |})
  = Ok Examples.go_strategy.
Proof.
  destruct (most_voted_strategy_ready Examples.empty_state) as (H1 & _ & H3).
  split.
  - apply H1. reflexivity.
  - apply H3. reflexivity.
Defined.

(** Counterexample to C5 as stated: the state a period starts with has no
    participants, and [reset] on it raises instead of returning a state. *)
Lemma reset_counterexample :
  ¬ ∃ st, reset Examples.empty_state = Ok st.
Proof. intros [st Hst]. vm_compute in Hst. discriminate Hst. Qed.

(** C5, amended: [update] is a functional update: after two updates every
    field holds what the second update gave it, else what the first gave
    it, else what it held before, so that setting one field and then
    another exposes both; and for a period state whose participants are
    set, [reset] returns a period state that keeps the participants and
    has neither [participant_to_strategy] nor [most_voted_strategy]. *)
Theorem update_update_reset (self : PeriodState) :
  (∀ k1 k2,
     let st := update (update self k1) k2 in
     _participants st =
       default (default (_participants self) (kw_participants k1))
               (kw_participants k2) ∧
     _participant_to_strategy st =
       default (default (_participant_to_strategy self)
                        (kw_participant_to_strategy k1))
               (kw_participant_to_strategy k2) ∧
     _most_voted_strategy st =
       default (default (_most_voted_strategy self)
                        (kw_most_voted_strategy k1))
               (kw_most_voted_strategy k2)) ∧
  (∀ x y,
     let st :=
       update (update self (mkKwargs None None (Some x)))
              (mkKwargs None (Some y) None) in
     _most_voted_strategy st = x ∧
     _participant_to_strategy st = y ∧
     _participants st = _participants self) ∧
  (∀ P k1 k2,
     _participants (update (update self k1) k2) = Some P →
     reset (update (update self k1) k2) =
       Ok {| _participants := Some P;
             _participant_to_strategy := None;
             _most_voted_strategy := None |}) ∧
  (∀ P, _participants self = Some P →
        reset self =
          Ok {| _participants := Some P;
                _participant_to_strategy := None;
                _most_voted_strategy := None |}).
Proof.
  assert (∀ st P, _participants st = Some P →
            reset st = Ok (mkPeriodState (Some P) None None)) as Hreset.
  { intros st P HP. unfold reset, participants. by rewrite HP. }
  split; [|split; [|split]].
  - intros k1 k2. by simpl.
  - intros x y. by simpl.
  - intros P k1 k2. apply Hreset.
  - apply Hreset.
Qed.

Lemma update_update_reset_witness :
  reset
    (update
       (update (PeriodState_init (Some Examples.four_agents) None None)
          (mkKwargs None None (Some (Some Examples.go_strategy))))
       (mkKwargs None (Some (Some (Examples.three_votes Examples.go_strategy)))
          None))
  = Ok {| _participants := Some Examples.four_agents;
          _participant_to_strategy := None;
          _most_voted_strategy := None |}.
Proof.
  apply (proj1 (proj2 (proj2
           (update_update_reset
              (PeriodState_init (Some Examples.four_agents) None None))))).
  reflexivity.
Defined.

(** ** The transition function of the application *)

Section transition_function.
Import LiquidityProvisionAbciApp.

(** The keys of the dictionary literal are pairwise different, so the list
    of entries is the dictionary. *)
Lemma sources_NoDup : NoDup sources.
Proof. apply (bool_decide_unpack _). vm_compute. exact I. Qed.

Lemma targets_all :
  ∀ rc, rc ∈ targets.
Proof.
  intros rc. apply (bool_decide_unpack _). destruct rc; vm_compute; exact I.
Qed.

(** What [outgoing] gives for a round class is declared for it. *)
Lemma outgoing_transitions src t :
  t ∈ outgoing src → (src, t.1, t.2) ∈ transitions.
Proof.
  revert t. apply Forall_forall. apply (bool_decide_unpack _).
  destruct src; vm_compute; exact I.
Qed.

(** C7: [RegistrationRound] is the initial round; [ConsensusReachedRound]
    is a target of the transition function, is not one of its sources and
    has no outgoing transition; every other round class that is a target
    is a source with at least one outgoing transition; hence a target
    without outgoing transitions is [ConsensusReachedRound]. *)
Theorem consensus_reached_unique_terminal :
  initial_round_cls = RegistrationRound ∧
  ConsensusReachedRound ∈ targets ∧
  (ConsensusReachedRound ∉ sources) ∧
  outgoing ConsensusReachedRound = [] ∧
  (∀ rc, rc ∈ targets → rc ≠ ConsensusReachedRound →
         rc ∈ sources ∧ outgoing rc ≠ []) ∧
  (∀ rc, (rc ∈ targets ∧ outgoing rc = []) ↔ rc = ConsensusReachedRound).
Proof.
  assert (∀ rc, rc ≠ ConsensusReachedRound →
                rc ∈ sources ∧ outgoing rc ≠ []) as Hother.
  { intros rc Hrc. split.
    - apply (bool_decide_unpack _).
      destruct rc; try (vm_compute; exact I). by destruct Hrc.
    - destruct rc; try (vm_compute; discriminate). by destruct Hrc. }
  split; [reflexivity|]. split; [apply targets_all|].
  split; [apply (bool_decide_unpack _); vm_compute; exact I|].
  split; [reflexivity|]. split.
  - intros rc _. apply Hother.
  - intros rc. split.
    + intros [_ Hout].
      destruct (decide (rc = ConsensusReachedRound)) as [|Hne]; [done|].
      by destruct (Hother rc Hne) as [_ []].
    + intros ->. split; [apply targets_all|reflexivity].
Qed.

Lemma consensus_reached_unique_terminal_witness :
  SwapBackRound ∈ sources ∧ outgoing SwapBackRound ≠ [].
Proof.
  apply (proj1 (proj2 (proj2 (proj2 (proj2
           consensus_reached_unique_terminal)))) SwapBackRound).
  - apply (bool_decide_unpack _). vm_compute. exact I.
  - discriminate.
Defined.

(** C10: every declared [ROUND_TIMEOUT] transition and every declared
    [NO_MAJORITY] transition targets [RegistrationRound], and
    [RegistrationRound] itself declares a [DONE] transition only. *)
Theorem fallbacks_rewind_to_registration :
  (∀ src event tgt,
     (src, event, tgt) ∈ transitions →
     event = Event.ROUND_TIMEOUT ∨ event = Event.NO_MAJORITY →
     tgt = RegistrationRound) ∧
  (∀ src event tgt,
     (event, tgt) ∈ outgoing src →
     event = Event.ROUND_TIMEOUT ∨ event = Event.NO_MAJORITY →
     tgt = RegistrationRound) ∧
  outgoing RegistrationRound = [(Event.DONE, RandomnessRound)] ∧
  (∀ event tgt, (event, tgt) ∈ outgoing RegistrationRound →
                event = Event.DONE).
Proof.
  assert (Forall (λ t, t.1.2 = Event.ROUND_TIMEOUT ∨ t.1.2 = Event.NO_MAJORITY
                       → t.2 = RegistrationRound) transitions) as Hall.
  { apply (bool_decide_unpack _). vm_compute. exact I. }
  rewrite Forall_forall in Hall.
  split; [|split; [|split]].
  - intros src event tgt Hin. apply (Hall (src, event, tgt) Hin).
  - intros src event tgt Hin. apply (Hall (src, event, tgt)).
    by apply (outgoing_transitions src (event, tgt)).
  - reflexivity.
  - intros event tgt Hin. apply list_elem_of_singleton in Hin. congruence.
Qed.

Lemma fallbacks_rewind_to_registration_witness :
  LiquidityProvisionAbciApp.StrategyEvaluationRound ≠ RegistrationRound ∧
  RegistrationRound = RegistrationRound.
Proof.
  split; [discriminate|].
  apply (proj1 fallbacks_rewind_to_registration
           LiquidityProvisionAbciApp.StrategyEvaluationRound
           Event.NO_MAJORITY RegistrationRound).
  - apply (bool_decide_unpack _). vm_compute. exact I.
  - right. reflexivity.
Defined.

End transition_function.

(** ** The behaviour states of the price estimation skill *)

Section behaviours.
Import PriceEstimation.

(** Counterexample to C8 as stated: [InitialDelayState] is in the list and
    its class declares no [matching_round]. *)
Lemma matching_round_counterexample :
  InitialDelayState ∈ all_ordered_states ∧
  ¬ ∃ r, matching_round InitialDelayState = Some r.
Proof.
  split.
  - apply (bool_decide_unpack _). vm_compute. exact I.
  - intros [r Hr]. discriminate Hr.
Qed.

(** C8, amended: every behaviour state of [all_ordered_states] other than
    [InitialDelayState] and [EndBehaviour] declares a [matching_round];
    these two, the first and the last of the list, declare none; and no
    two behaviour states of the list share a [matching_round]. *)
Theorem matching_round_injective :
  (∀ b, b ∈ all_ordered_states →
        b ≠ InitialDelayState → b ≠ EndBehaviour →
        ∃ r, matching_round b = Some r) ∧
  matching_round InitialDelayState = None ∧
  matching_round EndBehaviour = None ∧
  head all_ordered_states = Some InitialDelayState ∧
  last all_ordered_states = Some EndBehaviour ∧
  NoDup all_ordered_states ∧
  (∀ b1 b2 r, b1 ∈ all_ordered_states → b2 ∈ all_ordered_states →
              matching_round b1 = Some r → matching_round b2 = Some r →
              b1 = b2).
Proof.
  split; [|split; [|split; [|split; [|split; [|split]]]]];
    try reflexivity.
  - intros b _ Hi He. destruct b; simpl; eauto; congruence.
  - apply (bool_decide_unpack _). vm_compute. exact I.
  - intros b1 b2 r _ _ H1 H2.
    destruct b1; simpl in H1; try discriminate H1;
      destruct b2; simpl in H2; try discriminate H2;
      congruence.
Qed.

Lemma matching_round_injective_witness :
  ∃ r, matching_round SignatureBehaviour = Some r.
Proof.
  apply (proj1 matching_round_injective SignatureBehaviour).
  - apply (bool_decide_unpack _). vm_compute. exact I.
  - discriminate.
  - discriminate.
Defined.

(** One step of an execution: case on the environment's answer to the
    action the generator is stopped at, or on the comparison of the two
    addresses. *)
Ltac answer e :=
  match goal with
  | |- context [e ?n ?a] => destruct (e n a) as [?|]
  | |- context [decide ?P] => destruct (decide P) as [?|?]
  end;
  cbn -[decide].

Ltac run_generator e := cbn -[decide]; repeat answer e.

(** C9: in a single execution of [async_act], whatever the environment
    answers, a behaviour state of the list calls [send_a2a_transaction] at
    most once, and not at all once it has suspended at
    [wait_until_round_end]: the payload is not submitted twice in the
    round the execution belongs to. *)
Theorem async_act_sends_once (b : Behaviour) (e : env) :
  b ∈ all_ordered_states →
  let tr := trace e 0 (async_act b) in
  nb_sends tr ≤ 1 ∧ nb_sends (after_round_end tr) = 0.
Proof.
  intros _ tr. unfold tr. clear tr.
  destruct b; run_generator e; (split; [lia|reflexivity]).
Qed.

Lemma async_act_sends_once_witness :
  nb_sends (trace Examples.agent_1 0 (async_act FinalizeBehaviour)) ≤ 1 ∧
  nb_sends (after_round_end
              (trace Examples.agent_1 0 (async_act FinalizeBehaviour))) = 0.
Proof.
  apply (async_act_sends_once FinalizeBehaviour Examples.agent_1).
  apply (bool_decide_unpack _). vm_compute. exact I.
Defined.

(** The bound is attained: as designated sender, with nothing raising, the
    finalisation behaviour submits its payload once, and then waits. *)
Example finalize_sends :
  nb_sends (trace Examples.agent_1 0 (async_act FinalizeBehaviour)) = 1 ∧
  last (trace Examples.agent_1 0 (async_act FinalizeBehaviour))
    = Some WaitUntilRoundEnd.
Proof. split; vm_compute; reflexivity. Qed.

End behaviours.

(** ** Every outcome of [end_block] *)

Section end_block_outcomes.
Implicit Types (self : StrategyEvaluationRound) (P : gset string) (v : dict).

Lemma threshold_reached_unset self :
  _participants (period_state self) = None →
  threshold_reached self = Err (StateNotReady "participants").
Proof.
  intros HP. unfold threshold_reached, nb_participants, participants.
  by rewrite HP.
Qed.

Lemma threshold_reached_participants self b :
  threshold_reached self = Ok b →
  ∃ P, _participants (period_state self) = Some P ∧
       b = bool_decide
             (two_thirds_threshold (size P) ≤ largest_count (collection self)).
Proof.
  intros Hb. destruct (_participants (period_state self)) as [P|] eqn:HP.
  - exists P. split; [done|].
    rewrite (threshold_reached_set _ _ HP) in Hb. congruence.
  - rewrite (threshold_reached_unset _ HP) in Hb. discriminate Hb.
Qed.

(** Once the threshold is reached there is a most voted payload: a
    submitted value whose count is the largest, hence a quorum. *)
Lemma most_voted_payload_reached self P :
  _participants (period_state self) = Some P →
  threshold_reached self = Ok true →
  ∃ v, most_voted_payload self = Ok v ∧
       two_thirds_threshold (size P) ≤ payloads_count (collection self) v ∧
       payloads_count (collection self) v = largest_count (collection self).
Proof.
  intros HP Hreached. unfold most_voted_payload. rewrite Hreached.
  change (Ok true ≫= ?f) with (f true). cbv beta zeta iota.
  rewrite (threshold_reached_set _ _ HP) in Hreached.
  injection Hreached as Hq. apply bool_decide_eq_true in Hq.
  assert (collection self ≠ ∅) as Hne.
  { intros Hemp. rewrite Hemp, largest_count_empty in Hq.
    pose proof (two_thirds_threshold_pos (size P)). lia. }
  destruct (largest_count_attained _ Hne) as (a & p & Hp & Heq).
  destruct (list_find _ _) as [[i [a' p']]|] eqn:Hfind.
  - apply list_find_Some in Hfind as (_ & Hmax & _). simpl in *.
    exists (strategy p'). split; [done|]. split; [|done].
    rewrite Hmax. done.
  - exfalso. apply list_find_None in Hfind.
    rewrite Forall_forall in Hfind. apply (Hfind (a, p)); [|done].
    by apply elem_of_map_to_list.
Qed.

Lemma end_block_reached self P :
  _participants (period_state self) = Some P →
  threshold_reached self = Ok true →
  ∃ v, most_voted_payload self = Ok v ∧
       two_thirds_threshold (size P) ≤ payloads_count (collection self) v ∧
       end_block self =
         (s ← most_voted_strategy (period_state self);
          action ← getitem s "action";
          mret (Some (reached_state self v,
                      if decide (action = PyStrategyType StrategyType.GO)
                      then Event.DONE else Event.WAIT))).
Proof.
  intros HP Hreached.
  destruct (most_voted_payload_reached self P HP Hreached) as (v & Hv & Hq & _).
  exists v. split; [done|]. split; [done|].
  unfold end_block. rewrite Hreached.
  change (Ok true ≫= ?f) with (f true). cbv beta iota.
  rewrite Hv. reflexivity.
Qed.

Lemma end_block_not_reached self P :
  _participants (period_state self) = Some P →
  threshold_reached self = Ok false →
  end_block self =
    if is_majority_possible (collection self) (size P)
    then Ok None
    else Ok (Some ({| _participants := Some P;
                      _participant_to_strategy := None;
                      _most_voted_strategy := None |}, Event.NO_MAJORITY)).
Proof.
  intros HP Hnot. unfold end_block. rewrite Hnot.
  change (Ok false ≫= ?f) with (f false). cbv beta iota.
  rewrite (nb_participants_set _ _ HP).
  change (Ok ?x ≫= ?f) with (f x). cbv beta.
  destruct (is_majority_possible _ _); simpl; [done|].
  unfold _return_no_majority_event, reset, participants. by rewrite HP.
Qed.

Lemma end_block_unset self :
  _participants (period_state self) = None →
  end_block self = Err (StateNotReady "participants").
Proof.
  intros HP. unfold end_block. by rewrite (threshold_reached_unset _ HP).
Qed.

(** Case analysis on the participants and on the threshold. *)
Ltac end_block_cases self :=
  let P := fresh "P" in
  let HP := fresh "HP" in
  let Hthr := fresh "Hthr" in
  let Hq := fresh "Hq" in
  destruct (_participants (period_state self)) as [P|] eqn:HP;
  [ pose proof (threshold_reached_set self P HP) as Hthr;
    destruct (bool_decide
                (two_thirds_threshold (size P) ≤ largest_count (collection self)))
      eqn:Hq
  | pose proof (threshold_reached_unset self HP) as Hthr ].

(** X1: [end_block] returns [None] exactly when the threshold has not been
    reached and a majority is still possible. *)
Theorem end_block_None_iff self :
  end_block self = Ok None ↔
  ∃ n, nb_participants (period_state self) = Ok n ∧
       threshold_reached self = Ok false ∧
       is_majority_possible (collection self) n = true.
Proof.
  split.
  - intros Hnone. end_block_cases self.
    + destruct (end_block_reached self P HP Hthr) as (v & _ & _ & Heb).
      rewrite Heb in Hnone. unfold most_voted_strategy, getitem in Hnone.
      destruct (_most_voted_strategy (period_state self)) as [s|];
        [|discriminate Hnone].
      simpl in Hnone. destruct (s !! "action"); discriminate Hnone.
    + exists (size P). split; [by apply nb_participants_set|]. split; [done|].
      rewrite (end_block_not_reached self P HP Hthr) in Hnone.
      by destruct (is_majority_possible _ _).
    + rewrite (end_block_unset self HP) in Hnone. discriminate Hnone.
  - intros (n & Hn & Hnot & Hposs).
    destruct (threshold_reached_participants self false Hnot) as (P & HP & _).
    rewrite (nb_participants_set _ _ HP) in Hn. injection Hn as <-.
    rewrite (end_block_not_reached self P HP Hnot). by rewrite Hposs.
Qed.

(** X2: [end_block] returns the event [NO_MAJORITY] exactly when the
    threshold has not been reached and no majority is possible any more,
    and the state that comes with it holds the participants and nothing
    else. *)
Theorem end_block_NO_MAJORITY_iff self st :
  end_block self = Ok (Some (st, Event.NO_MAJORITY)) ↔
  ∃ P, _participants (period_state self) = Some P ∧
       threshold_reached self = Ok false ∧
       is_majority_possible (collection self) (size P) = false ∧
       st = {| _participants := Some P;
               _participant_to_strategy := None;
               _most_voted_strategy := None |}.
Proof.
  split.
  - intros Hnm. end_block_cases self.
    + destruct (end_block_reached self P HP Hthr) as (v & _ & _ & Heb).
      rewrite Heb in Hnm. unfold most_voted_strategy, getitem in Hnm.
      destruct (_most_voted_strategy (period_state self)) as [s|];
        [|discriminate Hnm].
      simpl in Hnm. destruct (s !! "action"); [|discriminate Hnm].
      simpl in Hnm. destruct (decide _); discriminate Hnm.
    + exists P. split; [done|]. split; [done|].
      rewrite (end_block_not_reached self P HP Hthr) in Hnm.
      destruct (is_majority_possible _ _); [discriminate Hnm|].
      split; [done|]. congruence.
    + rewrite (end_block_unset self HP) in Hnm. discriminate Hnm.
  - intros (P & HP & Hnot & Hposs & ->).
    rewrite (end_block_not_reached self P HP Hnot). by rewrite Hposs.
Qed.

(** The results [end_block] can give once the threshold is reached. *)
Lemma end_block_reached_result self P res :
  _participants (period_state self) = Some P →
  threshold_reached self = Ok true →
  end_block self = Ok res →
  ∃ v s a,
    most_voted_payload self = Ok v ∧
    two_thirds_threshold (size P) ≤ payloads_count (collection self) v ∧
    _most_voted_strategy (period_state self) = Some s ∧
    s !! "action" = Some a ∧
    res = Some (reached_state self v,
                if decide (a = PyStrategyType StrategyType.GO)
                then Event.DONE else Event.WAIT).
Proof.
  intros HP Hthr Hres.
  destruct (end_block_reached self P HP Hthr) as (v & Hv & Hq & Heb).
  rewrite Heb in Hres. unfold most_voted_strategy, getitem in Hres.
  destruct (_most_voted_strategy (period_state self)) as [s|];
    [|discriminate Hres].
  simpl in Hres. destruct (s !! "action") as [a|] eqn:Ha;
    [|discriminate Hres].
  simpl in Hres. injection Hres as <-. by exists v, s, a.
Qed.

(** X3: the only events [end_block] returns are [DONE], [WAIT] and
    [NO_MAJORITY], and the transition function has an entry for each of
    them at the strategy evaluation round: to the swap round, to the wait
    round and to the registration round. *)
Theorem end_block_event_handled self st event :
  end_block self = Ok (Some (st, event)) →
  (event = Event.DONE ∨ event = Event.WAIT ∨ event = Event.NO_MAJORITY) ∧
  LiquidityProvisionAbciApp.next_round
    LiquidityProvisionAbciApp.StrategyEvaluationRound event =
  Some (match event with
        | Event.DONE => LiquidityProvisionAbciApp.SwapRound
        | Event.WAIT => LiquidityProvisionAbciApp.WaitRound
        | _ => LiquidityProvisionAbciApp.RegistrationRound
        end).
Proof.
  intros Heb. end_block_cases self.
  - destruct (end_block_reached_result self P _ HP Hthr Heb)
      as (v & s & a & _ & _ & _ & _ & [= _ ->]).
    destruct (decide _); (split; [auto|reflexivity]).
  - rewrite (end_block_not_reached self P HP Hthr) in Heb.
    destruct (is_majority_possible _ _); [discriminate Heb|].
    injection Heb as _ <-. split; [auto|reflexivity].
  - rewrite (end_block_unset self HP) in Heb. discriminate Heb.
Qed.

(** X4: whatever state [end_block] returns, its participants are those of
    the period state the round was created with. *)
Theorem end_block_keeps_participants self st event :
  end_block self = Ok (Some (st, event)) →
  ∃ P, _participants (period_state self) = Some P ∧
       _participants st = Some P.
Proof.
  intros Heb. end_block_cases self.
  - destruct (end_block_reached_result self P _ HP Hthr Heb)
      as (v & s & a & _ & _ & _ & _ & [= -> _]).
    exists P. split; [done|]. simpl. by rewrite HP.
  - rewrite (end_block_not_reached self P HP Hthr) in Heb.
    destruct (is_majority_possible _ _); [discriminate Heb|].
    injection Heb as <- _. by exists P.
  - rewrite (end_block_unset self HP) in Heb. discriminate Heb.
Qed.

(** X5: once the threshold is reached, the event is decided by the
    strategy recorded in the period state the round was created with,
    whatever the participants voted: [DONE] when its action is [GO],
    [WAIT] otherwise; the state returned carries the most voted payload. *)
Theorem end_block_event_of_recorded self s a :
  threshold_reached self = Ok true →
  _most_voted_strategy (period_state self) = Some s →
  s !! "action" = Some a →
  ∃ v, most_voted_payload self = Ok v ∧
       end_block self =
         Ok (Some (reached_state self v,
                   if decide (a = PyStrategyType StrategyType.GO)
                   then Event.DONE else Event.WAIT)).
Proof.
  intros Hthr Hs Ha.
  destruct (threshold_reached_participants self true Hthr) as (P & HP & _).
  destruct (end_block_reached self P HP Hthr) as (v & Hv & _ & Heb).
  exists v. split; [done|]. rewrite Heb. unfold most_voted_strategy, getitem.
  rewrite Hs. simpl. by rewrite Ha.
Qed.

(** X6: in a round whose participants are set, [end_block] raises in two
    cases and no other, both with the threshold reached: the period state
    the round was created with records no strategy (the error of
    [enforce]), or the strategy it records has no ["action"] key (a
    [KeyError]). *)
Theorem end_block_raises self P e :
  _participants (period_state self) = Some P →
  end_block self = Err e ↔
  (threshold_reached self = Ok true ∧
   _most_voted_strategy (period_state self) = None ∧
   e = AEAEnforceError "'most_voted_strategy' field is None") ∨
  (threshold_reached self = Ok true ∧
   ∃ s, _most_voted_strategy (period_state self) = Some s ∧
        s !! "action" = None ∧ e = KeyError "action").
Proof.
  intros HP. split.
  - intros Herr. pose proof (threshold_reached_set self P HP) as Hthr.
    destruct (bool_decide _) eqn:Hq.
    + destruct (end_block_reached self P HP Hthr) as (v & _ & _ & Heb).
      rewrite Heb in Herr. unfold most_voted_strategy, getitem in Herr.
      destruct (_most_voted_strategy (period_state self)) as [s|] eqn:Hs.
      * simpl in Herr. destruct (s !! "action") as [a|] eqn:Ha;
          [discriminate Herr|].
        injection Herr as <-. right. split; [done|]. by exists s.
      * injection Herr as <-. by left.
    + rewrite (end_block_not_reached self P HP Hthr) in Herr.
      destruct (is_majority_possible _ _); discriminate Herr.
  - intros [(Hthr & Hs & ->)|(Hthr & s & Hs & Ha & ->)].
    + destruct (end_block_reached self P HP Hthr) as (v & _ & _ & Heb).
      rewrite Heb. unfold most_voted_strategy. by rewrite Hs.
    + destruct (end_block_reached self P HP Hthr) as (v & _ & _ & Heb).
      rewrite Heb. unfold most_voted_strategy, getitem. rewrite Hs. simpl.
      by rewrite Ha.
Qed.

(** X7: the state returned with [DONE] or [WAIT] holds the round's
    collection, and reading [most_voted_strategy] from it gives the most
    voted payload of the round; the state returned with [NO_MAJORITY]
    holds no collection and reading [most_voted_strategy] from it
    raises. *)
Theorem end_block_state_readable self st event :
  end_block self = Ok (Some (st, event)) →
  if decide (event = Event.NO_MAJORITY)
  then most_voted_strategy st =
         Err (AEAEnforceError "'most_voted_strategy' field is None") ∧
       _participant_to_strategy st = None
  else ∃ v,
         most_voted_strategy st = Ok v ∧
         most_voted_payload self = Ok v ∧
         _participant_to_strategy st = Some (collection self).
Proof.
  intros Heb. end_block_cases self.
  - destruct (end_block_reached_result self P _ HP Hthr Heb)
      as (v & s & a & Hv & Hquorum & _ & _ & [= -> ->]).
    assert ((if decide (a = PyStrategyType StrategyType.GO)
             then Event.DONE else Event.WAIT) ≠ Event.NO_MAJORITY) as Hne.
    { by destruct (decide _). }
    rewrite decide_False by done. by exists v.
  - rewrite (end_block_not_reached self P HP Hthr) in Heb.
    destruct (is_majority_possible _ _); [discriminate Heb|].
    injection Heb as <- <-. by rewrite decide_True.
  - rewrite (end_block_unset self HP) in Heb. discriminate Heb.
Qed.

End end_block_outcomes.

Section end_block_outcomes_examples.
Import Examples.

Lemma end_block_None_iff_witness :
  ∃ n, nb_participants (period_state (round_of None (two_votes go_strategy)))
         = Ok n ∧
       threshold_reached (round_of None (two_votes go_strategy)) = Ok false ∧
       is_majority_possible (two_votes go_strategy) n = true.
Proof.
  apply (proj1 (end_block_None_iff (round_of None (two_votes go_strategy)))).
  vm_compute. reflexivity.
Defined.

Lemma end_block_NO_MAJORITY_iff_witness :
  ∃ P, _participants (period_state (round_of None split_votes)) = Some P ∧
       threshold_reached (round_of None split_votes) = Ok false ∧
       is_majority_possible split_votes (size P) = false ∧
       PeriodState_init (Some four_agents) None None =
         {| _participants := Some P;
            _participant_to_strategy := None;
            _most_voted_strategy := None |}.
Proof.
  apply (proj1 (end_block_NO_MAJORITY_iff (round_of None split_votes) _)).
  vm_compute. reflexivity.
Defined.

Lemma end_block_event_handled_witness :
  LiquidityProvisionAbciApp.next_round
    LiquidityProvisionAbciApp.StrategyEvaluationRound Event.WAIT =
  Some LiquidityProvisionAbciApp.WaitRound.
Proof.
  apply (end_block_event_handled
           (round_of (Some wait_strategy) (three_votes go_strategy))
           (PeriodState_init (Some four_agents)
              (Some (three_votes go_strategy)) (Some go_strategy))
           Event.WAIT).
  vm_compute. reflexivity.
Defined.

Lemma end_block_keeps_participants_witness :
  ∃ P, _participants (period_state (round_of None split_votes)) = Some P ∧
       _participants (PeriodState_init (Some four_agents) None None) = Some P.
Proof.
  apply (end_block_keeps_participants (round_of None split_votes)
           (PeriodState_init (Some four_agents) None None) Event.NO_MAJORITY).
  vm_compute. reflexivity.
Defined.

(** Three agents vote to go in a round entered with a strategy to wait on
    record: the state carries the vote and the event is [WAIT]. *)
Lemma end_block_event_of_recorded_witness :
  ∃ v, most_voted_payload
         (round_of (Some wait_strategy) (three_votes go_strategy)) = Ok v ∧
       end_block (round_of (Some wait_strategy) (three_votes go_strategy)) =
         Ok (Some (reached_state
                     (round_of (Some wait_strategy) (three_votes go_strategy)) v,
                   Event.WAIT)).
Proof.
  apply (end_block_event_of_recorded
           (round_of (Some wait_strategy) (three_votes go_strategy))
           wait_strategy (PyStrategyType StrategyType.WAIT)).
  - vm_compute. reflexivity.
  - reflexivity.
  - reflexivity.
Defined.

Lemma end_block_raises_witness :
  end_block (round_of (Some ∅) (three_votes go_strategy)) =
  Err (KeyError "action").
Proof.
  apply (proj2 (end_block_raises
                  (round_of (Some ∅) (three_votes go_strategy))
                  four_agents _ eq_refl)).
  right. split; [vm_compute; reflexivity|].
  exists ∅. split; [reflexivity|]. split; reflexivity.
Defined.

Lemma end_block_state_readable_witness :
  ∃ v,
    most_voted_strategy
      (PeriodState_init (Some four_agents)
         (Some (three_votes go_strategy)) (Some go_strategy)) = Ok v ∧
    most_voted_payload (round_of (Some go_strategy) (three_votes go_strategy))
      = Ok v ∧
    _participant_to_strategy
      (PeriodState_init (Some four_agents)
         (Some (three_votes go_strategy)) (Some go_strategy))
      = Some (three_votes go_strategy).
Proof.
  apply (end_block_state_readable
           (round_of (Some go_strategy) (three_votes go_strategy))
           (PeriodState_init (Some four_agents)
              (Some (three_votes go_strategy)) (Some go_strategy))
           Event.DONE).
  vm_compute. reflexivity.
Defined.

End end_block_outcomes_examples.

(** ** Resetting a period state *)

(** X8: [reset] is idempotent: the state it returns has the participants
    of the state it was given, is its own reset, holds no collection, and
    reading [most_voted_strategy] from it raises. *)
Theorem reset_idempotent (st st' : PeriodState) :
  reset st = Ok st' →
  reset st' = Ok st' ∧
  _participants st' = _participants st ∧
  _participant_to_strategy st' = None ∧
  most_voted_strategy st' =
    Err (AEAEnforceError "'most_voted_strategy' field is None").
Proof.
  unfold reset, participants.
  destruct (_participants st) as [P|] eqn:HP; [|discriminate].
  simpl. intros [= <-]. by simpl.
Qed.

Lemma reset_idempotent_witness :
  reset (PeriodState_init (Some Examples.four_agents) None None) =
    Ok (PeriodState_init (Some Examples.four_agents) None None).
Proof.
  refine (proj1 (reset_idempotent
                   (PeriodState_init (Some Examples.four_agents)
                      (Some (Examples.three_votes Examples.go_strategy))
                      (Some Examples.go_strategy)) _ _)).
  reflexivity.
Defined.

(** ** The graph of the transition function *)

Section transition_graph.
Import LiquidityProvisionAbciApp.

(** X9: the transition function is a function: no round class is a key
    twice, no event is declared twice for a round class, and a transition
    is declared exactly when the table's entry for its source and event is
    its target. *)
Theorem transition_function_functional :
  NoDup sources ∧
  (∀ rc, NoDup (outgoing rc).*1) ∧
  (∀ src event tgt,
     (src, event, tgt) ∈ transitions ↔ next_round src event = Some tgt).
Proof.
  split; [apply sources_NoDup|]. split.
  - intros rc. apply (bool_decide_unpack _). destruct rc; vm_compute; exact I.
  - intros src event tgt. split.
    + revert src event tgt.
      assert (Forall (λ t, next_round t.1.1 t.1.2 = Some t.2) transitions)
        as Hall.
      { apply (bool_decide_unpack _). vm_compute. exact I. }
      rewrite Forall_forall in Hall.
      intros src event tgt Hin. apply (Hall _ Hin).
    + intros Hnext. apply (bool_decide_unpack _).
      destruct src, event; vm_compute in Hnext;
        try discriminate Hnext; injection Hnext as <-; vm_compute; exact I.
Qed.

Lemma transition_function_functional_witness :
  next_round AllowanceCheckRound Event.NO_ALLOWANCE = Some AddAllowanceRound.
Proof.
  apply (proj1 (proj2 (proj2 transition_function_functional) _ _ _)).
  apply (bool_decide_unpack _). vm_compute. exact I.
Defined.

Lemma successors_step a b : b ∈ successors a → step a b.
Proof.
  unfold successors. intros Hin. apply list_elem_of_fmap in Hin as ([event b'] & -> & Hin).
  exists event. by apply (outgoing_transitions a (event, b')).
Qed.

(** What [reach] lists is reachable. *)
Lemma reach_sound n a b : b ∈ reach n a → rtc step a b.
Proof.
  revert b. induction n as [|n IH]; intros b; simpl.
  - intros ->%list_elem_of_singleton. reflexivity.
  - cbv zeta. rewrite elem_of_remove_dups, elem_of_app.
    intros [Hin|Hin]; [by apply IH|].
    apply list_elem_of_bind in Hin as (c & Hb & Hc).
    eapply rtc_r; [by apply IH|]. by apply successors_step.
Qed.

(** X10: every round class of the application can be reached from the
    initial round, and from every round class the application can reach
    [ConsensusReachedRound]. *)
Theorem every_round_reachable (rc : RoundCls) :
  rtc step initial_round_cls rc ∧ rtc step rc ConsensusReachedRound.
Proof.
  split.
  - apply (reach_sound 17). apply (bool_decide_unpack _).
    destruct rc; vm_compute; exact I.
  - apply (reach_sound 17). apply (bool_decide_unpack _).
    destruct rc; vm_compute; exact I.
Qed.

(** X11: every round class but [ConsensusReachedRound] declares a [DONE]
    transition, and following [DONE] transitions alone leads from every
    round class to [ConsensusReachedRound] within 17 transitions; from the
    initial round it takes all 17. *)
Theorem done_path_terminates :
  (∀ rc, next_round rc Event.DONE = None ↔ rc = ConsensusReachedRound) ∧
  (∀ rc, follow_done 17 rc = ConsensusReachedRound) ∧
  (∀ n, n < 17 → follow_done n initial_round_cls ≠ ConsensusReachedRound).
Proof.
  split; [|split].
  - intros rc. split.
    + destruct rc; vm_compute; intros H; try discriminate H; reflexivity.
    + intros ->. reflexivity.
  - intros rc. destruct rc; vm_compute; reflexivity.
  - intros n Hn.
    do 17 (destruct n as [|n]; [vm_compute; discriminate|]). lia.
Qed.

Lemma done_path_terminates_witness :
  follow_done 16 initial_round_cls ≠ ConsensusReachedRound.
Proof.
  apply (proj2 (proj2 done_path_terminates) 16). lia.
Defined.

(** X12: every round class with transitions, except [RegistrationRound],
    declares a transition for an event that [event_to_timeout] gives a
    timeout, so the application can leave it when nothing happens;
    [RegistrationRound] declares none; and a round class declares a
    [ROUND_TIMEOUT] transition exactly when it declares a [NO_MAJORITY]
    one. *)
Theorem timeout_fallbacks :
  (∀ rc, rc ∈ sources → rc ≠ RegistrationRound →
         ∃ event, event ∈ event_to_timeout.*1 ∧
                  is_Some (next_round rc event)) ∧
  (∀ event, event ∈ event_to_timeout.*1 →
            next_round RegistrationRound event = None) ∧
  (∀ rc, is_Some (next_round rc Event.ROUND_TIMEOUT) ↔
         is_Some (next_round rc Event.NO_MAJORITY)).
Proof.
  split; [|split].
  - intros rc Hsrc Hne.
    assert (Event.EXIT ∈ event_to_timeout.*1) as Hexit.
    { apply (bool_decide_unpack _). vm_compute. exact I. }
    assert (Event.ROUND_TIMEOUT ∈ event_to_timeout.*1) as Htimeout.
    { apply (bool_decide_unpack _). vm_compute. exact I. }
    assert (ConsensusReachedRound ∉ sources) as Hterminal.
    { apply (bool_decide_unpack _). vm_compute. exact I. }
    destruct rc;
      first [ by destruct Hne
            | by destruct Hterminal
            | exists Event.ROUND_TIMEOUT; split; [done|]; eexists; reflexivity
            | exists Event.EXIT; split; [done|]; eexists; reflexivity ].
  - intros event Hin. destruct event; try reflexivity;
      exfalso; revert Hin; apply (bool_decide_unpack _); vm_compute; exact I.
  - intros rc. destruct rc; vm_compute; split; intros [x Hx];
      try discriminate Hx; by eexists.
Qed.

Lemma timeout_fallbacks_witness :
  ∃ event, event ∈ event_to_timeout.*1 ∧
           is_Some (next_round DeploySafeRound event).
Proof.
  apply (proj1 timeout_fallbacks DeploySafeRound).
  - apply (bool_decide_unpack _). vm_compute. exact I.
  - discriminate.
Defined.



(** X14: the round identifiers declared in the file are pairwise
    different. *)
Theorem round_id_injective (rc1 rc2 : RoundCls) (id : string) :
  round_id rc1 = Some id → round_id rc2 = Some id → rc1 = rc2.
Proof.
  intros H1 H2.
  destruct rc1; simpl in H1; try discriminate H1;
    destruct rc2; simpl in H2; try discriminate H2;
    first [reflexivity | congruence].
Qed.

Lemma round_id_injective_witness :
  SelectKeeperAddAllowanceRound = SelectKeeperAddAllowanceRound.
Proof.
  apply (round_id_injective _ _ "select_keeper_approve"); reflexivity.
Defined.

End transition_graph.

(** ** More on the executions of the behaviour states *)

Section more_behaviours.
Import PriceEstimation.

(** One step of an execution, keeping the environment's answer as an
    equation. *)
Ltac answer_eq e :=
  match goal with
  | |- context [e ?n ?a] =>
      let v := fresh "v" in
      let E := fresh "E" in
      destruct (e n a) as [v|] eqn:E
  | |- context [decide ?P] => destruct (decide P) as [?|?]
  end;
  cbn -[decide bool_decide].

(** X15: the state identifiers of the behaviour states are pairwise
    different. *)
Theorem state_id_injective (b1 b2 : Behaviour) :
  state_id b1 = state_id b2 → b1 = b2.
Proof. destruct b1, b2; simpl; intros H; first [reflexivity | discriminate H]. Qed.

(** X17: when no action raises, a behaviour state bound to a round
    suspends at [wait_until_round_end] exactly once and submits its payload
    exactly once, except that a sender-only behaviour submits it only if
    the agent is the designated sender; the two states bound to no round
    do neither. *)
Theorem exactly_once (b : Behaviour) (e : env) :
  never_raises e →
  let tr := trace e 0 (async_act b) in
  nb_round_ends tr = (match matching_round b with Some _ => 1 | None => 0 end) ∧
  nb_sends tr =
    (match matching_round b with
     | Some _ => if sender_only b then (if designated e then 1 else 0) else 1
     | None => 0
     end).
Proof.
  intros Hnr tr. unfold tr, designated. clear tr.
  destruct b; cbn -[decide bool_decide];
    repeat (answer_eq e;
            try match goal with
                | E : e ?n ?a = None |- _ =>
                    exfalso; destruct (Hnr n a) as [? ?]; congruence
                end);
    repeat case_bool_decide; simplify_eq; try done;
    exfalso; match goal with n : ¬ _ ≠ _ |- _ => apply n; congruence end.
Qed.

(** X16: in a sender-only behaviour state, an agent that is not the
    designated sender makes no request at all (no payload, no contract
    call, no raw transaction, no signing request), and when no action
    raises it still suspends at [wait_until_round_end] once. *)
Theorem not_designated_idle (b : Behaviour) (e : env) :
  sender_only b = true →
  designated e = false →
  let tr := trace e 0 (async_act b) in
  Forall (λ a, is_request a = false) tr ∧
  (never_raises e → nb_round_ends tr = 1).
Proof.
  intros Hb Hd tr. unfold tr. clear tr. unfold designated in Hd.
  apply bool_decide_eq_false in Hd.
  destruct b; try discriminate Hb; cbn -[decide bool_decide];
    repeat (answer_eq e;
            try (exfalso;
                 match goal with n : ¬ _ ≠ _ |- _ => apply n; congruence end));
    (split; [repeat constructor|]); intros Hnr; try reflexivity;
    match goal with
    | E : e ?n ?a = None |- _ =>
        exfalso; destruct (Hnr n a) as [? ?]; congruence
    end.
Qed.

(** X18: when the context gives [address] as the agent's address, every
    payload a behaviour state submits has [address] as its sender and is of
    the payload class of that behaviour state. *)
Theorem payload_of_agent (b : Behaviour) (e : env) (address : value) :
  agent_is address e →
  Forall (λ p, payload_sender p = address ∧ builds b p = true)
    (sent (trace e 0 (async_act b))).
Proof.
  intros Hagent.
  destruct b; cbn -[decide bool_decide];
    repeat (answer_eq e;
            try match goal with
                | E : e ?n (ContextGet "agent_address") = Some ?v |- _ =>
                    rewrite (Hagent n) in E; injection E as <-
                end);
    repeat constructor.
Qed.

(** X19: whatever the environment answers, a behaviour state suspends at
    [wait_until_round_end] at most once, and once it has, it calls no
    primitive of the engine any more: it only reads and logs. *)
Theorem nothing_after_round_end (b : Behaviour) (e : env) :
  let tr := trace e 0 (async_act b) in
  nb_round_ends tr ≤ 1 ∧
  Forall (λ a, is_primitive a = false) (after_round_end tr).
Proof.
  intros tr. unfold tr. clear tr.
  destruct b; cbn -[decide bool_decide]; repeat answer_eq e;
    (split; [unfold nb_round_ends; simpl; lia | repeat constructor]).
Qed.

(** What [sends_follow] checks, for a run split at one of its sends. *)
Lemma sends_follow_split f seen tr pre p post :
  sends_follow f seen tr = true →
  tr = pre ++ SendA2aTransaction p :: post →
  seen = true ∨ ∃ a, a ∈ pre ∧ f a = true.
Proof.
  revert seen pre. induction tr as [|a tr IH]; intros seen pre Hsf Heq.
  - by destruct pre.
  - destruct pre as [|a' pre]; simpl in Heq; injection Heq as -> ->.
    + simpl in Hsf. apply andb_true_iff in Hsf as [-> _]. by left.
    + simpl in Hsf. destruct (is_send a').
      * apply andb_true_iff in Hsf as [_ Hsf].
        destruct (IH seen pre Hsf eq_refl) as [?|(x & Hx & Hfx)]; [by left|].
        right. exists x. split; [by right|done].
      * destruct (IH _ pre Hsf eq_refl) as [Hor|(x & Hx & Hfx)].
        -- apply orb_true_iff in Hor as [?|Hfa]; [by left|].
           right. exists a'. split; [by left|done].
        -- right. exists x. split; [by right|done].
Qed.

(** X20: the behaviour states that report the outcome of an operation
    submit their payload only after that operation has been answered: the
    raw transaction for the deployment and the finalisation, the contract
    call for the transaction hash, the signer's message for the
    signature. *)
Theorem payload_after_answer (b : Behaviour) (e : env) pre p post :
  b ∈ [DeploySafeBehaviour; TransactionHashBehaviour; SignatureBehaviour;
       FinalizeBehaviour] →
  trace e 0 (async_act b) = pre ++ SendA2aTransaction p :: post →
  ∃ a, a ∈ pre ∧ awaited b a = true.
Proof.
  intros Hb Htr.
  destruct (sends_follow_split (awaited b) false
              (trace e 0 (async_act b)) pre p post) as [?|?];
    [|done|done|done].
  clear Htr.
  destruct b; try (exfalso; revert Hb; apply (bool_decide_unpack _);
                   vm_compute; exact I);
    cbn -[decide bool_decide]; repeat answer_eq e; reflexivity.
Qed.

(** X21: the payload the finalisation behaviour submits carries the hash
    that [send_raw_transaction] returned for the Safe transaction it sent
    earlier in the same run. *)
Theorem finalize_reports_ledger_hash (e : env) (p : Payload) :
  p ∈ sent (trace e 0 (async_act FinalizeBehaviour)) →
  ∃ n transaction tx_hash sender,
    trace e 0 (async_act FinalizeBehaviour) !! n
      = Some (SendRawTransaction transaction) ∧
    e n (SendRawTransaction transaction) = Some tx_hash ∧
    p = FinalizationTxPayload sender tx_hash.
Proof.
  cbn -[decide bool_decide]; repeat answer_eq e; intros Hp;
    try (by apply elem_of_nil in Hp);
    apply list_elem_of_singleton in Hp as ->;
    eexists 14, _, _, _; (split; [reflexivity|]);
    (split; [eassumption|reflexivity]).
Qed.

(** X22: the payload the deployment behaviour submits carries the contract
    address it took from the raw transaction of the contract call, and
    that same transaction is the one it sent to the ledger before
    submitting. *)
Theorem deploy_reports_contract_address (e : env) (p : Payload) :
  p ∈ sent (trace e 0 (async_act DeploySafeBehaviour)) →
  ∃ i j raw_transaction contract_address sender,
    i < j ∧
    trace e 0 (async_act DeploySafeBehaviour) !! i
      = Some (PyEval "body.pop" [raw_transaction; PyStr "contract_address"]) ∧
    e i (PyEval "body.pop" [raw_transaction; PyStr "contract_address"])
      = Some contract_address ∧
    trace e 0 (async_act DeploySafeBehaviour) !! j
      = Some (SendRawTransaction raw_transaction) ∧
    is_Some (e j (SendRawTransaction raw_transaction)) ∧
    p = DeploySafePayload sender contract_address.
Proof.
  cbn -[decide bool_decide]; repeat answer_eq e; intros Hp;
    try (by apply elem_of_nil in Hp);
    apply list_elem_of_singleton in Hp as ->;
    eexists 10, 11, _, _, _; (split; [lia|]); (split; [reflexivity|]);
    (split; [eassumption|]); (split; [reflexivity|]);
    (split; [|reflexivity]); eexists; eassumption.
Qed.

End more_behaviours.

Section more_behaviours_examples.
Import PriceEstimation Examples.

Lemma state_id_injective_witness : EndBehaviour = EndBehaviour.
Proof. apply (state_id_injective EndBehaviour EndBehaviour). reflexivity. Defined.

Lemma not_designated_idle_witness :
  Forall (λ a, is_request a = false)
    (trace agent_1_idle 0 (async_act DeploySafeBehaviour)) ∧
  nb_round_ends (trace agent_1_idle 0 (async_act DeploySafeBehaviour)) = 1.
Proof.
  destruct (not_designated_idle DeploySafeBehaviour agent_1_idle)
    as [Hidle Hends].
  - reflexivity.
  - vm_compute. reflexivity.
  - split; [exact Hidle|]. apply Hends. intros n a. unfold agent_1_idle.
    destruct (decide (n = 1)); eexists; reflexivity.
Defined.

Lemma exactly_once_witness :
  nb_round_ends (trace agent_1 0 (async_act FinalizeBehaviour)) = 1 ∧
  nb_sends (trace agent_1 0 (async_act FinalizeBehaviour)) = 1.
Proof.
  apply (exactly_once FinalizeBehaviour agent_1).
  intros n a. eexists. reflexivity.
Defined.

Lemma payload_of_agent_witness :
  Forall (λ p, payload_sender p = PyStr "agent_1" ∧
               builds ObserveBehaviour p = true)
    (sent (trace agent_1 0 (async_act ObserveBehaviour))).
Proof.
  apply (payload_of_agent ObserveBehaviour agent_1 (PyStr "agent_1")).
  intros n. reflexivity.
Defined.

Lemma payload_after_answer_witness :
  ∃ a, a ∈ take 8 (trace agent_1 0 (async_act SignatureBehaviour)) ∧
       awaited SignatureBehaviour a = true.
Proof.
  apply (payload_after_answer SignatureBehaviour agent_1 _
           (SignaturePayload (PyStr "agent_1") (PyStr "agent_1"))
           [WaitUntilRoundEnd]).
  - apply (bool_decide_unpack _). vm_compute. exact I.
  - vm_compute. reflexivity.
Defined.

Lemma finalize_reports_ledger_hash_witness :
  ∃ n transaction tx_hash sender,
    trace agent_1 0 (async_act FinalizeBehaviour) !! n
      = Some (SendRawTransaction transaction) ∧
    agent_1 n (SendRawTransaction transaction) = Some tx_hash ∧
    FinalizationTxPayload (PyStr "agent_1") (PyStr "agent_1")
      = FinalizationTxPayload sender tx_hash.
Proof.
  apply (finalize_reports_ledger_hash agent_1).
  vm_compute. left.
Defined.

Lemma deploy_reports_contract_address_witness :
  ∃ i j raw_transaction contract_address sender,
    i < j ∧
    trace agent_1 0 (async_act DeploySafeBehaviour) !! i
      = Some (PyEval "body.pop" [raw_transaction; PyStr "contract_address"]) ∧
    agent_1 i (PyEval "body.pop" [raw_transaction; PyStr "contract_address"])
      = Some contract_address ∧
    trace agent_1 0 (async_act DeploySafeBehaviour) !! j
      = Some (SendRawTransaction raw_transaction) ∧
    is_Some (agent_1 j (SendRawTransaction raw_transaction)) ∧
    DeploySafePayload (PyStr "agent_1") (PyStr "agent_1")
      = DeploySafePayload sender contract_address.
Proof.
  apply (deploy_reports_contract_address agent_1).
  vm_compute. left.
Defined.

End more_behaviours_examples.
